(** * SmartBusArrival: the data generator, the encoders and the prediction endpoint

    A shallow embedding of [train_model.py] and [app.py].

    Conventions of the embedding.
    - Python [float]/[numpy.float64] quantities are exact rationals [Q]; every
      literal of the sources (0.5, 1.5, 0.8, ...) is a short decimal and is
      written as such.  Python [int]s are [Z].
    - A Python [dict] is a [gmap]; [d.get(k, v)] is [default v (d !! k)] and
      [d[k]] raises [KeyError] when the key is missing.
    - The numpy global random state is threaded explicitly ([Rand]).
    - The Flask view [predict] runs in [App.Py], a state-and-exception monad
      over the module globals (model, encoders, scaler) and a log of the calls
      made on them.  Its argument is the JSON object of the request body.
    - The scikit-learn estimators are library code; [Sklearn] gives the part of
      their behaviour the specification describes.
    - The two test scripts are represented by the dictionaries they post. *)

From Stdlib Require Import QArith Qround Qminmax ZArith Lia Lqa Ascii String.
From stdpp Require Import gmap strings list fin_maps sorting.

Open Scope string_scope.
Open Scope list_scope.
Open Scope Z_scope.
Open Scope Q_scope.

(* ===================================================================== *)
(** ** numpy arithmetic on rationals *)
(* ===================================================================== *)

Module Np.

(** [np.clip(x, lo, hi)] is [minimum(maximum(x, lo), hi)]. *)
Definition clip (x lo hi : Q) : Q := Qmin (Qmax x lo) hi.

(** [np.rint]: the nearest integer, a tie going to the even neighbour. *)
Definition rint (x : Q) : Z :=
  let f := Qfloor x in
  match Qcompare (x - inject_Z f) (1 # 2) with
  | Lt => f
  | Gt => (f + 1)%Z
  | Eq => if Z.even f then f else (f + 1)%Z
  end.

(** [10 ** decimals] as a rational. *)
Definition pow10 (decimals : nat) : Q := inject_Z (10 ^ Z.of_nat decimals).

(** [np.round(x, decimals)] (also what [round(x, decimals)] gives on a
    [numpy.float64]): scale, round to the nearest integer, scale back. *)
Definition round (x : Q) (decimals : nat) : Q :=
  inject_Z (rint (x * pow10 decimals)) / pow10 decimals.

End Np.

(* ===================================================================== *)
(** ** The numpy random state *)
(* ===================================================================== *)

(** The three operations of [np.random] that [train_model.py] uses, on an
    abstract generator state [G].  [rs_seed s] is the state that
    [np.random.seed(s)] installs; it depends on [s] alone. *)
Class RandomState (G : Type) := {
  rs_seed : Z -> G;
  rs_randint : Z -> Z -> G -> Z * G;
  rs_normal : Q -> Q -> G -> Q * G
}.

(** Computations that read and advance the global random state. *)
Definition Rand (G A : Type) : Type := G -> A * G.

Definition rand_ret {G A} (a : A) : Rand G A := fun g => (a, g).

Definition rand_bind {G A B} (c : Rand G A) (k : A -> Rand G B) : Rand G B :=
  fun g => let '(a, g') := c g in k a g'.

Declare Scope rand_scope.
Delimit Scope rand_scope with rand.
Notation "x <~ c ;; k" := (rand_bind c (fun x => k))
  (at level 100, c at next level, right associativity) : rand_scope.

(** [n] draws in sequence, as a vectorised call with [size = n] makes them. *)
Fixpoint rand_repeat {G A} (n : nat) (c : Rand G A) : Rand G (list A) :=
  match n with
  | O => rand_ret []
  | S n' => (x <~ c ;; xs <~ rand_repeat n' c ;; rand_ret (x :: xs))%rand
  end.

(** One action per element of a list, left to right (a [for] loop that
    appends one result per iteration). *)
Fixpoint rand_for {G A B} (l : list A) (body : A -> Rand G B) : Rand G (list B) :=
  match l with
  | [] => rand_ret []
  | a :: l' => (b <~ body a ;; bs <~ rand_for l' body ;; rand_ret (b :: bs))%rand
  end.

Module NpRandom.
Section WithState.
Context {G : Type} `{RandomState G}.

(** [np.random.seed(s)]. *)
Definition seed (s : Z) : Rand G unit := fun _ => (tt, rs_seed s).

(** [np.random.randint(low, high, size)]. *)
Definition randint (low high : Z) (size : nat) : Rand G (list Z) :=
  rand_repeat size (rs_randint low high).

(** [np.random.choice(a, size)]: [size] indices below [len(a)], then the
    elements at these indices. *)
Definition choice (a : list string) (size : nat) : Rand G (list string) :=
  (idx <~ randint 0 (Z.of_nat (length a)) size ;;
   rand_ret ((fun i : Z => default "" (a !! Z.to_nat i)) <$> idx))%rand.

(** [np.random.normal(loc, scale)]. *)
Definition normal (loc scale : Q) : Rand G Q := rs_normal loc scale.

End WithState.
End NpRandom.

(* ===================================================================== *)
(** ** Python values, exceptions and builtins *)
(* ===================================================================== *)

(** What [request.get_json()] can put in a field of the request object, and
    what [jsonify] receives. *)
#[warnings="-register-all"]
Inductive pyval :=
| PNone
| PBool (b : bool)
| PInt (n : Z)
| PFloat (x : Q)
| PNaN
| PInf (negative : bool)
| PStr (s : string)
| PList (items : list pyval)
| PDict (items : list (string * pyval)).

(** The exceptions the modelled code can meet, each with what raised it. *)
Inductive exn :=
| TypeError_int (x : pyval)
| ValueError_int (x : pyval)
| OverflowError_int (x : pyval)
| KeyError (key : string)
| ValueError_unseen_label (y : pyval)
| ValueError_n_features (given expected : nat)
| ValueError_inverse_label (code : Z).

Inductive result (A : Type) :=
| Ok (a : A)
| Raise (e : exn).
Arguments Ok {A} a.
Arguments Raise {A} e.

(** Builtins whose text output or parsing is left to the interpreter:
    [int] on a [str], [str] on an exception, and the formatting of a value
    inside an f-string. *)
Class Builtins := {
  int_of_str : string -> option Z;
  str_exn : exn -> string;
  format_value : pyval -> string
}.

Module Py.

(** [bool(v)]. *)
Definition truthy (v : pyval) : bool :=
  match v with
  | PNone => false
  | PBool b => b
  | PInt n => negb (n =? 0)%Z
  | PFloat x => negb (Qeq_bool x 0)
  | PNaN | PInf _ => true
  | PStr s => negb (String.eqb s "")
  | PList items => negb (bool_decide (length items = O))
  | PDict items => negb (bool_decide (length items = O))
  end.

(** [v in l] for a list [l] of [str]: only an equal [str] is a member. *)
Definition in_strs (v : pyval) (l : list string) : bool :=
  match v with
  | PStr s => bool_decide (s ∈ l)
  | _ => false
  end.

Definition is_None (v : pyval) : bool :=
  match v with PNone => true | _ => false end.

(** [isinstance(v, int)]; [bool] is a subclass of [int]. *)
Definition isinstance_int (v : pyval) : bool :=
  match v with PInt _ | PBool _ => true | _ => false end.

(** The integer an [int] instance stands for in a comparison or in an array
    (only used on values for which [isinstance_int] holds). *)
Definition int_value (v : pyval) : Z :=
  match v with
  | PInt n => n
  | PBool b => Z.b2z b
  | _ => 0%Z
  end.

(** Truncation toward zero. *)
Definition trunc (x : Q) : Z :=
  if Qle_bool 0 x then Qfloor x else Qceiling x.

(** [int(v)]. *)
Definition int `{Builtins} (v : pyval) : result Z :=
  match v with
  | PBool b => Ok (Z.b2z b)
  | PInt n => Ok n
  | PFloat x => Ok (trunc x)
  | PNaN => Raise (ValueError_int v)
  | PInf _ => Raise (OverflowError_int v)
  | PStr s =>
      match int_of_str s with
      | Some n => Ok n
      | None => Raise (ValueError_int v)
      end
  | PNone | PList _ | PDict _ => Raise (TypeError_int v)
  end.

(** [sep.join(l)]. *)
Definition join (sep : string) (l : list string) : string := String.concat sep l.

End Py.

(* ===================================================================== *)
(** ** scikit-learn estimators *)
(* ===================================================================== *)

Module Sklearn.

(** Modelled from the spec: [sklearn.preprocessing.LabelEncoder] is a library
    class, not part of the repository.  Section 4.2: [fit] sorts the distinct
    values lexicographically and assigns ascending codes; [transform] looks a
    value's code up and fails when the value is absent; [inverse] maps a code
    back to its value. *)
Record LabelEncoder := { classes_ : list string }.

(** Modelled from the spec: [LabelEncoder.fit] is library code; section 4.2
    has it sort the distinct values lexicographically and give them ascending
    codes, so the table is the sorted list and a code is a position in it. *)
Definition LabelEncoder_fit (y : list string) : LabelEncoder :=
  {| classes_ := merge_sort String.le (remove_dups y) |}.

(** Modelled from the spec: [LabelEncoder.transform] is library code; section
    4.2 has it look the value's code up and fail when the value is absent. *)
Definition LabelEncoder_transform (le : LabelEncoder) (y : pyval) : result Z :=
  match y with
  | PStr s =>
      match list_find (eq s) (classes_ le) with
      | Some (i, _) => Ok (Z.of_nat i)
      | None => Raise (ValueError_unseen_label y)
      end
  | _ => Raise (ValueError_unseen_label y)
  end.

(** Modelled from the spec: [LabelEncoder.inverse_transform] is library code;
    section 4.2 has it map a code back to its value.  A code outside the table
    is refused. *)
Definition LabelEncoder_inverse_transform (le : LabelEncoder) (code : Z)
  : result string :=
  if (0 <=? code)%Z then
    match classes_ le !! Z.to_nat code with
    | Some s => Ok s
    | None => Raise (ValueError_inverse_label code)
    end
  else Raise (ValueError_inverse_label code).

(** Modelled from the spec: [LabelEncoder.fit_transform] is library code: fit,
    then the code of every value of the column (each value is among the
    classes, so the lookup finds it). *)
Definition LabelEncoder_fit_transform (y : list string) : LabelEncoder * list Z :=
  let le := LabelEncoder_fit y in
  (le, (fun s => match list_find (eq s) (classes_ le) with
                 | Some (i, _) => Z.of_nat i
                 | None => Z.of_nat (length (classes_ le))
                 end) <$> y).

(** Modelled from the spec: [sklearn.preprocessing.StandardScaler] is a
    library class.  Section 4.3: [transform] is elementwise
    (value - mean) / std with the persisted parameters; a row of the wrong
    width is rejected. *)
Record StandardScaler := { mean_ : list Q; scale_ : list Q }.

(** Modelled from the spec: [StandardScaler.transform] is library code; section
    4.3 gives (value - mean) / std elementwise.  A fitted scaler has no zero in
    [scale_]. *)
Definition StandardScaler_transform (sc : StandardScaler) (X : list Q)
  : result (list Q) :=
  if bool_decide (length X = length (mean_ sc)
                  ∧ length (scale_ sc) = length (mean_ sc)) then
    Ok (zip_with Qdiv (zip_with Qminus X (mean_ sc)) (scale_ sc))
  else Raise (ValueError_n_features (length X) (length (mean_ sc))).

(** Modelled from the spec: [sklearn.linear_model.Ridge] is a library class.
    Section 4.4: [predict] is dot(w, row) + b. *)
Record Ridge := { coef_ : list Q; intercept_ : Q }.

Definition dot (w x : list Q) : Q := foldr Qplus 0 (zip_with Qmult w x).

(** Modelled from the spec: [Ridge.predict] is library code; section 4.4 gives
    dot(w, row) + b. *)
Definition Ridge_predict (m : Ridge) (X : list Q) : result Q :=
  if bool_decide (length X = length (coef_ m)) then
    Ok (dot (coef_ m) X + intercept_ m)
  else Raise (ValueError_n_features (length X) (length (coef_ m))).

End Sklearn.

(* ===================================================================== *)
(** ** train_model.py *)
(* ===================================================================== *)

Module TrainModel.

Definition BUS_NUMBERS : list string :=
  ["BUS001"; "BUS002"; "BUS003"; "BUS004"; "BUS005"; "BUS006"; "BUS007"; "BUS008"].

Definition DESTINATIONS : list string :=
  ["Nagercoil"; "Kanyakumari"; "Marthandam"; "Colachel";
   "Thuckalay"; "Kulasekaram"; "Padmanabhapuram"; "Suchindram"].

Definition DAYS_OF_WEEK : list string :=
  ["Monday"; "Tuesday"; "Wednesday"; "Thursday"; "Friday"; "Saturday"; "Sunday"].

(** One row of the data frame built from the five drawn columns. *)
Record row := {
  Bus_Number : string;
  Destination : string;
  Day_Of_Week : string;
  Time_Period : Z;
  Stop_Sequence : Z
}.

(** A row together with its [Arrival_Time_minutes] column. *)
Record record := {
  features : row;
  Arrival_Time_minutes : Q
}.

(** [pd.DataFrame(data)] read row by row. *)
Fixpoint DataFrame (buses dests days : list string) (hours stops : list Z)
  : list row :=
  match buses, dests, days, hours, stops with
  | b :: buses', d :: dests', w :: days', h :: hours', s :: stops' =>
      {| Bus_Number := b; Destination := d; Day_Of_Week := w;
         Time_Period := h; Stop_Sequence := s |}
      :: DataFrame buses' dests' days' hours' stops'
  | _, _, _, _, _ => []
  end.

Definition destination_base_time : gmap string Q :=
  list_to_map
    [("Nagercoil", 2); ("Kanyakumari", 8); ("Marthandam", 5); ("Colachel", 10);
     ("Thuckalay", 12); ("Kulasekaram", 6); ("Padmanabhapuram", 3);
     ("Suchindram", 7)].

Definition base_time (destination : string) : Q :=
  default 6 (destination_base_time !! destination).

Definition stop_delay (stop_sequence : Z) : Q := inject_Z stop_sequence * 0.5.

Definition time_delay (hour : Z) : Q :=
  if ((6 <=? hour) && (hour <? 12))%Z then 1.5
  else if ((12 <=? hour) && (hour <? 18))%Z then 0.5
  else if ((18 <=? hour) && (hour <? 21))%Z then 2
  else 1.

Definition day_factor (day : string) : Q :=
  if bool_decide (day ∈ ["Saturday"; "Sunday"]) then 1 else 0.5.

Definition bus_delays : gmap string Q :=
  list_to_map
    [("BUS001", 0.5); ("BUS002", 1); ("BUS003", 0); ("BUS004", 0.8);
     ("BUS005", 0.3); ("BUS006", 1.2); ("BUS007", 0.2); ("BUS008", 0.7)].

Definition bus_delay (bus : string) : Q := default 0.5 (bus_delays !! bus).

(** [total_arrival_time] of the loop body, for a row and its noise draw. *)
Definition total_arrival_time (r : row) (noise : Q) : Q :=
  base_time (Destination r) + stop_delay (Stop_Sequence r)
  + time_delay (Time_Period r) + day_factor (Day_Of_Week r)
  + bus_delay (Bus_Number r) + noise.

(** The label a row receives from its noise draw: clipped when appended to
    [arrival_times], rounded when the column is stored. *)
Definition arrival_time (r : row) (noise : Q) : Q :=
  Np.round (Np.clip (total_arrival_time r noise) 1 20) 2.

(** The three encoders [preprocess_data] fits and returns, with the encoded
    feature rows and the target column. *)
Definition preprocess_data (df : list record)
  : list (list Z) * list Q * gmap string Sklearn.LabelEncoder :=
  let X := features <$> df in
  let y := Arrival_Time_minutes <$> df in
  let '(le_bus, bus_codes) :=
    Sklearn.LabelEncoder_fit_transform (Bus_Number <$> X) in
  let encoders := <["bus_encoder" := le_bus]> (∅ : gmap string Sklearn.LabelEncoder) in
  let '(le_destination, destination_codes) :=
    Sklearn.LabelEncoder_fit_transform (Destination <$> X) in
  let encoders := <["destination_encoder" := le_destination]> encoders in
  let '(le_day, day_codes) :=
    Sklearn.LabelEncoder_fit_transform (Day_Of_Week <$> X) in
  let encoders := <["day_encoder" := le_day]> encoders in
  let X_encoded :=
    (fun '(r, b, d, k) => [b; d; k; Time_Period r; Stop_Sequence r])
      <$> zip (zip (zip X bus_codes) destination_codes) day_codes in
  (X_encoded, y, encoders).

Section WithState.
Context {G : Type} `{RandomState G}.

(** The body of [for idx, row in df.iterrows()]: one noise draw, then the
    clipped total. *)
Definition arrival_loop_body (r : row) : Rand G Q :=
  (noise <~ NpRandom.normal 0 0.5 ;;
   rand_ret (Np.clip (total_arrival_time r noise) 1 20))%rand.

Definition generate_dataset (num_records : nat) : Rand G (list record) :=
  (buses <~ NpRandom.choice BUS_NUMBERS num_records ;;
   dests <~ NpRandom.choice DESTINATIONS num_records ;;
   days <~ NpRandom.choice DAYS_OF_WEEK num_records ;;
   hours <~ NpRandom.randint 0 24 num_records ;;
   stops <~ NpRandom.randint 1 8 num_records ;;
   let df := DataFrame buses dests days hours stops in
   arrival_times <~ rand_for df arrival_loop_body ;;
   rand_ret
     (zip_with (fun r t => {| features := r;
                              Arrival_Time_minutes := Np.round t 2 |})
               df arrival_times))%rand.

(** [np.random.seed(s)] followed by one call of the generator. *)
Definition seeded_generate (s : Z) (num_records : nat) : Rand G (list record) :=
  (_ <~ NpRandom.seed s ;; generate_dataset num_records)%rand.

(** The same, twice in one process. *)
Definition seeded_generate_twice (s : Z) (num_records : nat)
  : Rand G (list record * list record) :=
  (d1 <~ seeded_generate s num_records ;;
   d2 <~ seeded_generate s num_records ;;
   rand_ret (d1, d2))%rand.

End WithState.
End TrainModel.

(** A small linear congruential generator, to run the generator on. *)
Module Lcg.

Definition next (g : Z) : Z := ((g * 1103515245 + 12345) mod 2147483648)%Z.

Definition randint (low high : Z) (g : Z) : Z * Z :=
  let g' := next g in ((low + (g' / 65536) mod (high - low))%Z, g').

(** Not Gaussian: a deviate in [loc - scale, loc + scale], in steps of
    [scale / 100]. *)
Definition normal (loc scale : Q) (g : Z) : Q * Z :=
  let g' := next g in
  (loc + scale * (inject_Z ((g' / 65536) mod 201 - 100) / 100), g').

#[export] Instance random_state : RandomState Z :=
  {| rs_seed := fun s => s; rs_randint := randint; rs_normal := normal |}.

End Lcg.

(* ===================================================================== *)
(** ** app.py *)
(* ===================================================================== *)

Module App.
Import Sklearn.

(** The module globals loaded once by [joblib.load]. *)
Record globals := {
  model : Ridge;
  encoders : gmap string LabelEncoder;
  scaler : StandardScaler
}.

(** Calls made on the loaded artifacts, in the order they are made. *)
Inductive call :=
| EncoderTransform (key : string) (y : pyval)
| ScalerTransform (X : list Q)
| ModelPredict (X : list Q).

Record world := {
  w_globals : globals;
  w_calls : list call
}.

(** A view function: it reads the globals, may call the artifacts, and
    returns a value or raises. *)
Definition Py (A : Type) : Type := world -> result A * world.

Definition ret {A} (a : A) : Py A := fun w => (Ok a, w).

Definition raise {A} (e : exn) : Py A := fun w => (Raise e, w).

Definition bind {A B} (c : Py A) (k : A -> Py B) : Py B :=
  fun w =>
    match c w with
    | (Ok a, w') => k a w'
    | (Raise e, w') => (Raise e, w')
    end.

(** [try: c except Exception as e: handler(e)]. *)
Definition try_except {A} (c : Py A) (handler : exn -> Py A) : Py A :=
  fun w =>
    match c w with
    | (Ok a, w') => (Ok a, w')
    | (Raise e, w') => handler e w'
    end.

Definition lift {A} (r : result A) : Py A := fun w => (r, w).

Definition read_global {A} (proj : globals -> A) : Py A :=
  fun w => (Ok (proj (w_globals w)), w).

Definition log (c : call) : Py unit :=
  fun w => (Ok tt, {| w_globals := w_globals w; w_calls := w_calls w ++ [c] |}).

Declare Scope py_scope.
Delimit Scope py_scope with py.
Notation "x <- c ;; k" := (bind c (fun x => k))
  (at level 100, c at next level, right associativity) : py_scope.

(** [d[key]]. *)
Definition getitem {V} (d : gmap string V) (key : string) : Py V :=
  match d !! key with
  | Some v => ret v
  | None => raise (KeyError key)
  end.

(** [encoders[key].transform([y])[0]]. *)
Definition encoder_transform (key : string) (y : pyval) : Py Z :=
  (encs <- read_global encoders ;;
   le <- getitem encs key ;;
   _ <- log (EncoderTransform key y) ;;
   lift (LabelEncoder_transform le y))%py.

(** [scaler.transform(features)] on the single row. *)
Definition scaler_transform (X : list Q) : Py (list Q) :=
  (sc <- read_global scaler ;;
   _ <- log (ScalerTransform X) ;;
   lift (StandardScaler_transform sc X))%py.

(** [model.predict(features_scaled)[0]]. *)
Definition model_predict (X : list Q) : Py Q :=
  (m <- read_global model ;;
   _ <- log (ModelPredict X) ;;
   lift (Ridge_predict m X))%py.

Definition valid_buses : list string :=
  ["BUS001"; "BUS002"; "BUS003"; "BUS004"; "BUS005"; "BUS006"; "BUS007"; "BUS008"].

Definition valid_destinations : list string :=
  ["Nagercoil"; "Kanyakumari"; "Marthandam"; "Colachel";
   "Thuckalay"; "Kulasekaram"; "Padmanabhapuram"; "Suchindram"].

Definition valid_days : list string :=
  ["Monday"; "Tuesday"; "Wednesday"; "Thursday"; "Friday"; "Saturday"; "Sunday"].

(** What a view returns: the dictionary given to [jsonify] and the status. *)
Definition response : Type := gmap string pyval * Z.

Definition error_response (msg : string) (status : Z) : response :=
  ({[ "error" := PStr msg ]}, status).

Section WithBuiltins.
Context `{Builtins}.

(** The [try] block of [predict]. *)
Definition predict_body (data : gmap string pyval) : Py response :=
  (let bus_number := default PNone (data !! "bus_number") in
   let destination := default PNone (data !! "destination") in
   let day_of_week := default (PStr "Monday") (data !! "day_of_week") in
   let time_period := default PNone (data !! "time_period") in
   stop_sequence <- lift (Py.int (default (PInt 1) (data !! "stop_sequence"))) ;;
   if negb (Py.truthy bus_number) || negb (Py.in_strs bus_number valid_buses) then
     ret (error_response
            ("Invalid bus number. Valid buses: " +:+ Py.join ", " valid_buses) 400)
   else if negb (Py.truthy destination)
           || negb (Py.in_strs destination valid_destinations) then
     ret (error_response
            ("Invalid destination. Valid destinations: "
             +:+ Py.join ", " valid_destinations) 400)
   else if negb (Py.in_strs day_of_week valid_days) then
     ret (error_response
            ("Invalid day. Valid days: " +:+ Py.join ", " valid_days) 400)
   else if Py.is_None time_period || negb (Py.isinstance_int time_period)
           || (Py.int_value time_period <? 0)%Z
           || (Py.int_value time_period >? 23)%Z then
     ret (error_response "Invalid time period. Time must be hour (0-23)" 400)
   else if (stop_sequence <? 1)%Z || (stop_sequence >? 7)%Z then
     ret (error_response "Invalid stop sequence. Enter between 1 and 7" 400)
   else
     bus_encoded <- encoder_transform "bus_encoder" bus_number ;;
     destination_encoded <- encoder_transform "destination_encoder" destination ;;
     day_encoded <- encoder_transform "day_encoder" day_of_week ;;
     let features :=
       inject_Z <$> [bus_encoded; destination_encoded; day_encoded;
                     Py.int_value time_period; stop_sequence] in
     features_scaled <- scaler_transform features ;;
     predicted_time <- model_predict features_scaled ;;
     let predicted_time := Np.round predicted_time 2 in
     let response : gmap string pyval :=
       list_to_map
         [("success", PBool true);
          ("predicted_arrival_time", PFloat predicted_time);
          ("unit", PStr "minutes");
          ("bus_number", bus_number);
          ("destination", destination);
          ("day_of_week", day_of_week);
          ("time_period", time_period);
          ("stop_sequence", PInt stop_sequence);
          ("message",
           PStr ("Bus " +:+ format_value bus_number
                 +:+ " will arrive in approximately "
                 +:+ format_value (PFloat predicted_time) +:+ " minutes"))] in
     ret (response, 200%Z))%py.

(** [predict], for the JSON object [data] of the request. *)
Definition predict (data : gmap string pyval) : Py response :=
  try_except (predict_body data)
    (fun e => ret (error_response ("Prediction error: " +:+ str_exn e) 500)).

End WithBuiltins.
End App.

(** A view is read-only when it leaves the globals as they were and its
    result depends on the world through the globals alone, not through the
    call log. *)
Definition readonly {A} (c : App.Py A) : Prop :=
  forall w,
    App.w_globals (snd (c w)) = App.w_globals w
    /\ forall w', App.w_globals w' = App.w_globals w -> fst (c w') = fst (c w).

(** Concrete builtins to run [predict] with: decimal digits with an optional
    sign for [int], and short fixed texts for messages. *)
Module Interp.

Definition digit (c : ascii) : option Z :=
  let n := Z.of_nat (nat_of_ascii c) in
  if ((48 <=? n) && (n <=? 57))%Z then Some (n - 48)%Z else None.

Fixpoint digits (acc : Z) (s : string) : option Z :=
  match s with
  | EmptyString => Some acc
  | String c s' =>
      match digit c with
      | Some d => digits (10 * acc + d)%Z s'
      | None => None
      end
  end.

Definition int_of_str (s : string) : option Z :=
  match s with
  | EmptyString => None
  | String "-"%char (String c s') => Z.opp <$> digits 0 (String c s')
  | String "+"%char (String c s') => digits 0 (String c s')
  | _ => digits 0 s
  end.

Definition str_exn (e : exn) : string :=
  match e with
  | TypeError_int _ => "int() argument must be a string or a number"
  | ValueError_int _ => "invalid literal for int()"
  | OverflowError_int _ => "cannot convert float infinity to integer"
  | KeyError key => "'" +:+ key +:+ "'"
  | ValueError_unseen_label _ => "y contains previously unseen labels"
  | ValueError_n_features _ _ => "X has a different number of features"
  | ValueError_inverse_label _ => "y contains previously unseen labels"
  end.

Definition format_value (v : pyval) : string :=
  match v with
  | PStr s => s
  | _ => "<value>"
  end.

#[export] Instance builtins : Builtins :=
  Build_Builtins int_of_str str_exn format_value.

End Interp.

(* ===================================================================== *)
(** ** Requests as the specification reads them *)
(* ===================================================================== *)

(** The five checks of [predict] stated on the request object itself, and the
    text each of them answers with.  [predict] is compared with these below. *)
Module Request.

Definition str_field_in (data : gmap string pyval) (key : string)
    (vocabulary : list string) : bool :=
  match data !! key with
  | Some (PStr s) => bool_decide (s ∈ vocabulary)
  | _ => false
  end.

Definition bus_ok (data : gmap string pyval) : bool :=
  str_field_in data "bus_number" App.valid_buses.

Definition destination_ok (data : gmap string pyval) : bool :=
  str_field_in data "destination" App.valid_destinations.

(** An absent day counts as Monday. *)
Definition day_ok (data : gmap string pyval) : bool :=
  match data !! "day_of_week" with
  | None => true
  | Some (PStr s) => bool_decide (s ∈ App.valid_days)
  | Some _ => false
  end.

(** An integer hour in [0, 23]; JSON [true] and [false] are the integers 1
    and 0. *)
Definition hour_ok (data : gmap string pyval) : bool :=
  match data !! "time_period" with
  | Some (PInt n) => (0 <=? n)%Z && (n <=? 23)%Z
  | Some (PBool _) => true
  | _ => false
  end.

Definition stop_ok (stop_sequence : Z) : bool :=
  (1 <=? stop_sequence)%Z && (stop_sequence <=? 7)%Z.

Definition bus_message : string :=
  "Invalid bus number. Valid buses: BUS001, BUS002, BUS003, BUS004, BUS005, BUS006, BUS007, BUS008".

Definition destination_message : string :=
  "Invalid destination. Valid destinations: Nagercoil, Kanyakumari, Marthandam, Colachel, Thuckalay, Kulasekaram, Padmanabhapuram, Suchindram".

Definition day_message : string :=
  "Invalid day. Valid days: Monday, Tuesday, Wednesday, Thursday, Friday, Saturday, Sunday".

Definition hour_message : string :=
  "Invalid time period. Time must be hour (0-23)".

Definition stop_message : string :=
  "Invalid stop sequence. Enter between 1 and 7".

(** The artifacts can serve a request: each encoder is present and knows the
    submitted value, and scaler and model are fitted on five features with
    no zero scale. *)
Definition artifacts_cover (g : App.globals) (data : gmap string pyval) : Prop :=
  (exists le s, App.encoders g !! "bus_encoder" = Some le
                /\ data !! "bus_number" = Some (PStr s)
                /\ s ∈ Sklearn.classes_ le)
  /\ (exists le s, App.encoders g !! "destination_encoder" = Some le
                   /\ data !! "destination" = Some (PStr s)
                   /\ s ∈ Sklearn.classes_ le)
  /\ (exists le s, App.encoders g !! "day_encoder" = Some le
                   /\ default (PStr "Monday") (data !! "day_of_week") = PStr s
                   /\ s ∈ Sklearn.classes_ le)
  /\ length (Sklearn.mean_ (App.scaler g)) = 5%nat
  /\ length (Sklearn.scale_ (App.scaler g)) = 5%nat
  /\ Forall (fun s => ~ s == 0) (Sklearn.scale_ (App.scaler g))
  /\ length (Sklearn.coef_ (App.model g)) = 5%nat.

(** Steps 3 to 5 of the service on the five numeric features [codes]:
    standardise with the persisted scaler, then apply the linear model. *)
Definition linear_output (g : App.globals) (codes : list Z) : Q :=
  Sklearn.dot (Sklearn.coef_ (App.model g))
    (zip_with Qdiv
       (zip_with Qminus (inject_Z <$> codes) (Sklearn.mean_ (App.scaler g)))
       (Sklearn.scale_ (App.scaler g)))
  + Sklearn.intercept_ (App.model g).

End Request.

(** Artifact sets and requests used as running examples. *)
Module Examples.
Import Sklearn App.

(** Encoders fitted on the three full vocabularies. *)
Definition encoders_full : gmap string LabelEncoder :=
  list_to_map
    [("bus_encoder", LabelEncoder_fit TrainModel.BUS_NUMBERS);
     ("destination_encoder", LabelEncoder_fit TrainModel.DESTINATIONS);
     ("day_encoder", LabelEncoder_fit TrainModel.DAYS_OF_WEEK)].

Definition scaler_mid : StandardScaler :=
  {| mean_ := [3.5; 3.5; 3; 11.5; 4]; scale_ := [2; 2; 2; 5; 2] |}.

(** A mild model: every valid request is predicted between 1 and 20. *)
Definition artifacts_mild : globals :=
  {| model := {| coef_ := [0.1; 0.2; 0; 0.3; 1]; intercept_ := 9.5 |};
     encoders := encoders_full;
     scaler := scaler_mid |}.

(** A model leaning hard on the stop position. *)
Definition artifacts_steep : globals :=
  {| model := {| coef_ := [0; 0; 0; 0; -24]; intercept_ := 10.5 |};
     encoders := encoders_full;
     scaler := scaler_mid |}.

Definition fresh (g : globals) : world := {| w_globals := g; w_calls := [] |}.

(** The status of an answer, and one field of its JSON body. *)
Definition status (p : result response * world) : option Z :=
  match fst p with
  | Ok (_, st) => Some st
  | Raise _ => None
  end.

Definition field (key : string) (p : result response * world) : option pyval :=
  match fst p with
  | Ok (body, _) => body !! key
  | Raise _ => None
  end.

Definition scenario_A : gmap string pyval :=
  list_to_map
    [("bus_number", PStr "BUS001"); ("destination", PStr "Nagercoil");
     ("day_of_week", PStr "Monday"); ("time_period", PInt 14);
     ("stop_sequence", PInt 3)].

(** Scenario A without its day. *)
Definition scenario_no_day : gmap string pyval := delete "day_of_week" scenario_A.

(** Hour 24 together with a stop position that is no number. *)
Definition scenario_late_garbled : gmap string pyval :=
  <["time_period" := PInt 24]> (<["stop_sequence" := PStr "abc"]> scenario_A).

(** Hour 24 alone. *)
Definition scenario_late : gmap string pyval :=
  <["time_period" := PInt 24]> scenario_A.

End Examples.

(* ===================================================================== *)
(** ** Callers: the random source's contract and the test scripts *)
(* ===================================================================== *)

(** What [np.random.randint(low, high)] promises: a draw in [low, high). *)
Definition randint_in_range (G : Type) `{RandomState G} : Prop :=
  forall (low high : Z) (g : G),
    (low < high)%Z -> (low <= fst (rs_randint low high g) < high)%Z.

(** A row stays inside the declared vocabularies and numeric ranges. *)
Definition row_in_vocabulary (r : TrainModel.row) : Prop :=
  TrainModel.Bus_Number r ∈ TrainModel.BUS_NUMBERS
  /\ TrainModel.Destination r ∈ TrainModel.DESTINATIONS
  /\ TrainModel.Day_Of_Week r ∈ TrainModel.DAYS_OF_WEEK
  /\ (0 <= TrainModel.Time_Period r <= 23)%Z
  /\ (1 <= TrainModel.Stop_Sequence r <= 7)%Z.

(** Every value of a vocabulary occurs in a column of the frame. *)
Definition column_covers (column : TrainModel.row -> string)
    (vocabulary : list string) (df : list TrainModel.record) : Prop :=
  Forall (fun s => s ∈ (column <$> (TrainModel.features <$> df))) vocabulary.

(** test_new_predictions.py *)
Module TestNewPredictions.

(** The dictionary [test_prediction] posts to [/predict]. *)
Definition data (bus_number destination day time_period stop_seq : pyval)
  : gmap string pyval :=
  list_to_map
    [("bus_number", bus_number); ("destination", destination);
     ("day_of_week", day); ("time_period", time_period);
     ("stop_sequence", stop_seq)].

(** The eight calls the script makes. *)
Definition cases : list (gmap string pyval) :=
  [data (PStr "BUS001") (PStr "Nagercoil") (PStr "Monday") (PStr "Morning") (PInt 1);
   data (PStr "BUS003") (PStr "Kanyakumari") (PStr "Tuesday") (PStr "Afternoon") (PInt 4);
   data (PStr "BUS005") (PStr "Marthandam") (PStr "Wednesday") (PStr "Evening") (PInt 3);
   data (PStr "BUS002") (PStr "Colachel") (PStr "Thursday") (PStr "Night") (PInt 2);
   data (PStr "BUS007") (PStr "Thuckalay") (PStr "Saturday") (PStr "Morning") (PInt 5);
   data (PStr "BUS008") (PStr "Padmanabhapuram") (PStr "Friday") (PStr "Evening") (PInt 6);
   data (PStr "BUS004") (PStr "Suchindram") (PStr "Sunday") (PStr "Afternoon") (PInt 7);
   data (PStr "BUS006") (PStr "Kulasekaram") (PStr "Monday") (PStr "Morning") (PInt 3)].

End TestNewPredictions.

(** test_api.py *)
Module TestApi.

(** The shape of every dictionary [main] passes to [test_prediction], which
    posts it unchanged. *)
Definition data (distance traffic_level weather : pyval) : gmap string pyval :=
  list_to_map
    [("distance", distance); ("traffic_level", traffic_level); ("weather", weather)].

(** The eight test cases. *)
Definition cases : list (gmap string pyval) :=
  [data (PFloat 15.5) (PStr "Low") (PStr "Sunny");
   data (PFloat 35.0) (PStr "Medium") (PStr "Cloudy");
   data (PFloat 55.0) (PStr "High") (PStr "Rainy");
   data (PFloat 8.5) (PStr "Low") (PStr "Sunny");
   data (PFloat 95.0) (PStr "High") (PStr "Rainy");
   data (PInt 150) (PStr "Low") (PStr "Sunny");
   data (PInt 30) (PStr "VeryHigh") (PStr "Sunny");
   data (PInt 30) (PStr "Medium") (PStr "Snowy")].

End TestApi.

(** The request a generated row stands for: its five fields under the names
    [predict] reads. *)
Definition request_of_row (r : TrainModel.row) : gmap string pyval :=
  TestNewPredictions.data
    (PStr (TrainModel.Bus_Number r)) (PStr (TrainModel.Destination r))
    (PStr (TrainModel.Day_Of_Week r)) (PInt (TrainModel.Time_Period r))
    (PInt (TrainModel.Stop_Sequence r)).

(** The dictionary of a successful answer (the [response] of [predict]), from
    the request, the coerced stop position and the rounded prediction. *)
Definition success_body `{Builtins} (data : gmap string pyval) (stop_sequence : Z)
    (predicted_time : Q) : gmap string pyval :=
  list_to_map
    [("success", PBool true);
     ("predicted_arrival_time", PFloat predicted_time);
     ("unit", PStr "minutes");
     ("bus_number", default PNone (data !! "bus_number"));
     ("destination", default PNone (data !! "destination"));
     ("day_of_week", default (PStr "Monday") (data !! "day_of_week"));
     ("time_period", default PNone (data !! "time_period"));
     ("stop_sequence", PInt stop_sequence);
     ("message",
      PStr ("Bus " +:+ format_value (default PNone (data !! "bus_number"))
            +:+ " will arrive in approximately "
            +:+ format_value (PFloat predicted_time) +:+ " minutes"))].

(** The five calls a served request makes, in order. *)
Definition served_calls (data : gmap string pyval) (b d k stop : Z) (Xs : list Q)
  : list App.call :=
  [App.EncoderTransform "bus_encoder" (default PNone (data !! "bus_number"));
   App.EncoderTransform "destination_encoder" (default PNone (data !! "destination"));
   App.EncoderTransform "day_encoder"
     (default (PStr "Monday") (data !! "day_of_week"));
   App.ScalerTransform
     (inject_Z <$> [b; d; k;
                    Py.int_value (default PNone (data !! "time_period")); stop]);
   App.ModelPredict Xs].

(** Two outcomes of a view agree on what a client and the artifacts can see
    of a prediction: the world afterwards (globals and calls), the status, the
    predicted value and the error text. *)
Definition same_prediction (p1 p2 : result App.response * App.world) : Prop :=
  snd p1 = snd p2
  /\ match fst p1, fst p2 with
     | Ok (body1, st1), Ok (body2, st2) =>
         st1 = st2
         /\ body1 !! "predicted_arrival_time" = body2 !! "predicted_arrival_time"
         /\ body1 !! "error" = body2 !! "error"
     | Raise e1, Raise e2 => e1 = e2
     | _, _ => False
     end.

(** More running examples. *)
Module Examples2.
Import Sklearn App.

(** Encoders fitted on a small training set in which BUS001 never occurs. *)
Definition encoders_partial : gmap string LabelEncoder :=
  list_to_map
    [("bus_encoder", LabelEncoder_fit ["BUS002"; "BUS003"; "BUS002"]);
     ("destination_encoder", LabelEncoder_fit TrainModel.DESTINATIONS);
     ("day_encoder", LabelEncoder_fit TrainModel.DAYS_OF_WEEK)].

Definition artifacts_partial : globals :=
  {| model := model Examples.artifacts_mild;
     encoders := encoders_partial;
     scaler := scaler Examples.artifacts_mild |}.

(** A dataset of four records from the linear congruential source, and
    artifacts whose encoders are the ones [preprocess_data] fits on it. *)
Definition dataset_small : list TrainModel.record :=
  fst (TrainModel.seeded_generate (H := Lcg.random_state) 42 4 0%Z).

Definition artifacts_small : globals :=
  {| model := model Examples.artifacts_mild;
     encoders := snd (TrainModel.preprocess_data dataset_small);
     scaler := scaler Examples.artifacts_mild |}.

(** Forty records from the same source: every bus, destination and day
    occurs among them. *)
Definition dataset_forty : list TrainModel.record :=
  fst (TrainModel.generate_dataset (H := Lcg.random_state) 40 42%Z).

End Examples2.

(* ===================================================================== *)
(** ** Facts about the numpy arithmetic *)
(* ===================================================================== *)

Lemma clip_bounds (x lo hi : Q) : lo <= hi -> lo <= Np.clip x lo hi <= hi.
Proof.
  intros Hlh. unfold Np.clip. split.
  - apply Q.min_glb; [apply Q.le_max_r | exact Hlh].
  - apply Q.le_min_r.
Qed.

Lemma rint_between (x : Q) (a b : Z) :
  inject_Z a <= x <= inject_Z b -> (a <= Np.rint x <= b)%Z.
Proof.
  intros [Ha Hb].
  assert (Hfa : (a <= Qfloor x)%Z).
  { rewrite <- (Qfloor_Z a). apply Qfloor_resp_le. exact Ha. }
  assert (Hfb : (Qfloor x <= b)%Z).
  { rewrite <- (Qfloor_Z b). apply Qfloor_resp_le. exact Hb. }
  assert (Hstep : 1 # 2 <= x - inject_Z (Qfloor x) -> (Qfloor x + 1 <= b)%Z).
  { intros Hhalf.
    destruct (Z.eq_dec (Qfloor x) b) as [Heq | Hne]; [| lia].
    exfalso. rewrite Heq in Hhalf.
    lra. }
  unfold Np.rint.
  destruct (Qcompare (x - inject_Z (Qfloor x)) (1 # 2)) eqn:Hc.
  - apply Qeq_alt in Hc.
    assert (Hs : (Qfloor x + 1 <= b)%Z) by (apply Hstep; lra).
    destruct (Z.even (Qfloor x)); lia.
  - lia.
  - apply Qgt_alt in Hc.
    assert (Hs : (Qfloor x + 1 <= b)%Z) by (apply Hstep; lra).
    lia.
Qed.

Lemma pow10_pos (d : nat) : 0 < Np.pow10 d.
Proof.
  unfold Np.pow10. replace 0 with (inject_Z 0) by reflexivity.
  rewrite <- Zlt_Qlt. apply Z.pow_pos_nonneg; lia.
Qed.

(** Rounding to [d] decimals never leaves an interval with integer ends. *)
Lemma round_between (x : Q) (d : nat) (a b : Z) :
  inject_Z a <= x <= inject_Z b ->
  inject_Z a <= Np.round x d <= inject_Z b.
Proof.
  intros [Ha Hb]. pose proof (pow10_pos d) as Hp.
  assert (Hr : (a * 10 ^ Z.of_nat d <= Np.rint (x * Np.pow10 d) <= b * 10 ^ Z.of_nat d)%Z).
  { apply rint_between. rewrite !inject_Z_mult. fold (Np.pow10 d).
    split; apply Qmult_le_compat_r; auto using Qlt_le_weak. }
  destruct Hr as [Hra Hrb]. unfold Np.round. split.
  - apply Qle_shift_div_l; [exact Hp |].
    unfold Np.pow10. rewrite <- inject_Z_mult, <- Zle_Qle. exact Hra.
  - apply Qle_shift_div_r; [exact Hp |].
    unfold Np.pow10. rewrite <- inject_Z_mult, <- Zle_Qle. exact Hrb.
Qed.

(* ===================================================================== *)
(** ** The data generator *)
(* ===================================================================== *)

Section GeneratorFacts.
Context {G : Type} `{RandomState G}.
Import TrainModel.

Lemma rand_repeat_length {A} (n : nat) (c : Rand G A) (g : G) :
  length (fst (rand_repeat n c g)) = n.
Proof.
  revert g. induction n as [| n IH]; intros g; [reflexivity |].
  cbn [rand_repeat]. unfold rand_bind, rand_ret.
  destruct (c g) as [x g1]. specialize (IH g1).
  destruct (rand_repeat n c g1) as [xs g2]. cbn in *. by rewrite IH.
Qed.

Lemma choice_length (a : list string) (n : nat) (g : G) :
  length (fst (NpRandom.choice a n g)) = n.
Proof.
  unfold NpRandom.choice, NpRandom.randint, rand_bind, rand_ret.
  pose proof (rand_repeat_length n (rs_randint 0 (Z.of_nat (length a))) g) as Hl.
  destruct (rand_repeat n _ g) as [idx g1]. cbn in *.
  by rewrite length_fmap.
Qed.

Lemma DataFrame_length buses dests days hours stops (n : nat) :
  length buses = n -> length dests = n -> length days = n ->
  length hours = n -> length stops = n ->
  length (DataFrame buses dests days hours stops) = n.
Proof.
  revert buses dests days hours stops.
  induction n as [| n IH]; intros [| b bs] [| d ds] [| w ws] [| h hs] [| s ss];
    cbn; try discriminate; try reflexivity.
  intros. f_equal. apply IH; congruence.
Qed.

(** The loop yields one clipped total per row, each from some noise draw. *)
Lemma arrival_loop_spec (df : list row) (g : G) :
  Forall2 (fun r t => exists noise, t = Np.clip (total_arrival_time r noise) 1 20)
          df (fst (rand_for df arrival_loop_body g)).
Proof.
  revert g. induction df as [| r df IH]; intros g; [constructor |].
  cbn [rand_for]. unfold rand_bind, rand_ret.
  destruct (arrival_loop_body r g) as [t g1] eqn:Hbody. specialize (IH g1).
  destruct (rand_for df arrival_loop_body g1) as [ts g2]. cbn in *.
  unfold arrival_loop_body, NpRandom.normal, rand_bind, rand_ret in Hbody.
  destruct (rs_normal 0 0.5 g) as [noise g'].
  injection Hbody as <- _.
  constructor; [by exists noise | exact IH].
Qed.

(** Running the generator: the frame it builds and the column it adds. *)
Lemma generate_dataset_unfold (n : nat) (g : G) :
  exists (df : list row) (ts : list Q),
    length df = n
    /\ Forall2 (fun r t => exists noise, t = Np.clip (total_arrival_time r noise) 1 20)
               df ts
    /\ fst (generate_dataset n g)
       = zip_with (fun r t => {| features := r;
                                 Arrival_Time_minutes := Np.round t 2 |}) df ts.
Proof.
  unfold generate_dataset, rand_bind at 1 2 3 4 5 6, rand_ret.
  pose proof (choice_length BUS_NUMBERS n g) as Hb.
  destruct (NpRandom.choice BUS_NUMBERS n g) as [buses g1].
  pose proof (choice_length DESTINATIONS n g1) as Hd.
  destruct (NpRandom.choice DESTINATIONS n g1) as [dests g2].
  pose proof (choice_length DAYS_OF_WEEK n g2) as Hw.
  destruct (NpRandom.choice DAYS_OF_WEEK n g2) as [days g3].
  pose proof (rand_repeat_length n (rs_randint 0 24) g3) as Hh.
  unfold NpRandom.randint.
  destruct (rand_repeat n (rs_randint 0 24) g3) as [hours g4].
  pose proof (rand_repeat_length n (rs_randint 1 8) g4) as Hs.
  destruct (rand_repeat n (rs_randint 1 8) g4) as [stops g5].
  cbn [fst] in *.
  pose proof (arrival_loop_spec (DataFrame buses dests days hours stops) g5) as Hl.
  destruct (rand_for _ arrival_loop_body g5) as [ts g6]. cbn [fst] in *.
  exists (DataFrame buses dests days hours stops), ts.
  split; [by apply DataFrame_length |]. split; [exact Hl | reflexivity].
Qed.

Lemma generate_dataset_length (n : nat) (g : G) :
  length (fst (generate_dataset n g)) = n.
Proof.
  destruct (generate_dataset_unfold n g) as (df & ts & Hn & Hl & ->).
  rewrite length_zip_with. apply Forall2_length in Hl. lia.
Qed.

End GeneratorFacts.

(** The generator runs: with the linear congruential state seeded with 42, the
    first of four records is BUS002 to Nagercoil on a Thursday at 6, stop 7,
    labelled 2 + 3.5 + 1.5 + 0.5 + 1 + 0.28 = 8.78. *)
Example seeded_generate_first_record :
  head (fst (TrainModel.seeded_generate (H := Lcg.random_state) 42 4 0%Z))
  = Some {| TrainModel.features :=
              {| TrainModel.Bus_Number := "BUS002";
                 TrainModel.Destination := "Nagercoil";
                 TrainModel.Day_Of_Week := "Thursday";
                 TrainModel.Time_Period := 6;
                 TrainModel.Stop_Sequence := 7 |};
            TrainModel.Arrival_Time_minutes := 8.78 |}.
Proof. vm_compute. reflexivity. Qed.



(** C6.  For an hour of the day the time-of-day delay is 1.5 on [6,12), 0.5 on
    [12,18), 2.0 on [18,21) and 1.0 on the remaining hours [0,6) and [21,24);
    every hour falls in exactly one of the four bands. *)
Theorem time_delay_bands (hour : Z) :
  (0 <= hour <= 23)%Z ->
  ((6 <= hour < 12)%Z /\ TrainModel.time_delay hour == 1.5
   \/ (12 <= hour < 18)%Z /\ TrainModel.time_delay hour == 0.5
   \/ (18 <= hour < 21)%Z /\ TrainModel.time_delay hour == 2.0
   \/ ((0 <= hour < 6)%Z \/ (21 <= hour <= 23)%Z) /\ TrainModel.time_delay hour == 1.0)
  /\ ~ ((6 <= hour < 12)%Z /\ (12 <= hour < 18)%Z)
  /\ ~ ((6 <= hour < 12)%Z /\ (18 <= hour < 21)%Z)
  /\ ~ ((12 <= hour < 18)%Z /\ (18 <= hour < 21)%Z)
  /\ ~ (((0 <= hour < 6)%Z \/ (21 <= hour <= 23)%Z) /\ (6 <= hour < 21)%Z).
Proof.
  intros Hrange. split; [| lia].
  unfold TrainModel.time_delay.
  destruct (6 <=? hour)%Z eqn:H6; destruct (hour <? 12)%Z eqn:H12;
    destruct (12 <=? hour)%Z eqn:H12'; destruct (hour <? 18)%Z eqn:H18;
    destruct (18 <=? hour)%Z eqn:H18'; destruct (hour <? 21)%Z eqn:H21;
    cbn [andb]; try lia.
  all: first
    [ left; split; [lia | reflexivity]
    | right; left; split; [lia | reflexivity]
    | right; right; left; split; [lia | reflexivity]
    | right; right; right; split; [lia | reflexivity] ].
Qed.

Lemma time_delay_bands_witness :
  (0 <= 19 <= 23)%Z /\ TrainModel.time_delay 19 == 2.0.
Proof.
  split; [lia |].
  destruct (time_delay_bands 19 ltac:(lia)) as [[[Hb _] | [[Hb _] | [[_ Hd] | [Hb _]]]] _];
    [lia | lia | exact Hd | lia].
Defined.

(** C3 as stated fails: BUS003 is mapped to 0, below 0.2. *)
Lemma bus_delays_not_all_above_0_2 :
  ~ (forall b v, TrainModel.bus_delays !! b = Some v -> 0.2 <= v <= 1.2).
Proof.
  intros Hall. destruct (Hall "BUS003" 0 eq_refl) as [Hlow _].
  revert Hlow. apply Qlt_not_le. reflexivity.
Qed.

(** C3, amended.  Every bus id is either one of BUS001..BUS008, mapped by the
    table to a delay in [0, 1.2] (BUS003 to 0, every other one to at least
    0.2), or unmapped and given the default 0.5. *)
Theorem bus_delay_table (b : string) :
  (b ∈ TrainModel.BUS_NUMBERS
   /\ exists v, TrainModel.bus_delays !! b = Some v
        /\ TrainModel.bus_delay b = v
        /\ 0 <= v <= 1.2
        /\ ((b = "BUS003" /\ v = 0) \/ (b <> "BUS003" /\ 0.2 <= v)))
  \/ ((b ∉ TrainModel.BUS_NUMBERS)
      /\ TrainModel.bus_delays !! b = None
      /\ TrainModel.bus_delay b = 0.5).
Proof.
  destruct (decide (b ∈ TrainModel.BUS_NUMBERS)) as [Hin | Hout].
  - left. split; [exact Hin |].
    unfold TrainModel.BUS_NUMBERS in Hin.
    repeat (apply elem_of_cons in Hin as [-> | Hin];
            [eexists; split; [reflexivity |]; split; [reflexivity |];
             split; [split; discriminate |];
             first [left; split; reflexivity
                   | right; split; discriminate] |]).
    by apply elem_of_nil in Hin.
  - right. split; [exact Hout |].
    assert (Hnone : TrainModel.bus_delays !! b = None).
    { apply not_elem_of_list_to_map_1. exact Hout. }
    split; [exact Hnone |]. unfold TrainModel.bus_delay. by rewrite Hnone.
Qed.

(* ===================================================================== *)
(** ** The label encoder *)
(* ===================================================================== *)

Section EncoderFacts.
Import Sklearn.

(** Fitting keeps exactly the values of the column. *)
Lemma LabelEncoder_fit_classes (y : list string) (s : string) :
  s ∈ classes_ (LabelEncoder_fit y) <-> s ∈ y.
Proof.
  unfold LabelEncoder_fit. cbn [classes_].
  rewrite merge_sort_Permutation. apply elem_of_remove_dups.
Qed.

Lemma LabelEncoder_fit_sorted (y : list string) :
  Sorted String.le (classes_ (LabelEncoder_fit y))
  /\ NoDup (classes_ (LabelEncoder_fit y)).
Proof.
  unfold LabelEncoder_fit. cbn [classes_]. split.
  - apply Sorted_merge_sort. apply _.
  - rewrite merge_sort_Permutation. apply NoDup_remove_dups.
Qed.

(** A class is sent to a code inside the table, and that code is sent back
    to the class. *)
Lemma LabelEncoder_transform_inverse (le : LabelEncoder) (s : string) :
  s ∈ classes_ le ->
  exists code : Z,
    (0 <= code < Z.of_nat (length (classes_ le)))%Z
    /\ LabelEncoder_transform le (PStr s) = Ok code
    /\ LabelEncoder_inverse_transform le code = Ok s.
Proof.
  intros Hin.
  destruct (list_find_elem_of (eq s) (classes_ le) s Hin eq_refl) as [[i x] Hfind].
  pose proof Hfind as Hspec. apply list_find_Some in Hspec as (Hlook & <- & _).
  exists (Z.of_nat i). split; [| split].
  - apply lookup_lt_Some in Hlook. lia.
  - unfold LabelEncoder_transform. by rewrite Hfind.
  - unfold LabelEncoder_inverse_transform.
    destruct (0 <=? Z.of_nat i)%Z eqn:Hpos; [| apply Z.leb_gt in Hpos; lia].
    by rewrite Nat2Z.id, Hlook.
Qed.

(** A value outside the table is refused, not given a default code. *)
Lemma LabelEncoder_transform_unseen (le : LabelEncoder) (s : string) :
  s ∉ classes_ le ->
  LabelEncoder_transform le (PStr s) = Raise (ValueError_unseen_label (PStr s)).
Proof.
  intros Hout. unfold LabelEncoder_transform.
  destruct (list_find (eq s) (classes_ le)) as [[i x] |] eqn:Hfind; [| reflexivity].
  apply list_find_Some in Hfind as (Hlook & <- & _).
  exfalso. apply Hout. eapply list_elem_of_lookup_2. exact Hlook.
Qed.

End EncoderFacts.

(** C7.  For the table fitted on any column of values and for every value [v]
    of that column, [transform] gives a code of the table and [inverse] maps
    that code back to [v]. *)
Theorem encoder_round_trip (values : list string) (v : string) :
  v ∈ values ->
  exists code : Z,
    Sklearn.LabelEncoder_transform (Sklearn.LabelEncoder_fit values) (PStr v) = Ok code
    /\ Sklearn.LabelEncoder_inverse_transform (Sklearn.LabelEncoder_fit values) code
       = Ok v.
Proof.
  intros Hin. apply LabelEncoder_fit_classes in Hin.
  destruct (LabelEncoder_transform_inverse _ _ Hin) as (code & _ & Ht & Hi).
  by exists code.
Qed.

Lemma encoder_round_trip_witness :
  "Marthandam" ∈ TrainModel.DESTINATIONS
  /\ exists code : Z,
       Sklearn.LabelEncoder_transform
         (Sklearn.LabelEncoder_fit TrainModel.DESTINATIONS) (PStr "Marthandam") = Ok code
       /\ Sklearn.LabelEncoder_inverse_transform
            (Sklearn.LabelEncoder_fit TrainModel.DESTINATIONS) code = Ok "Marthandam".
Proof.
  assert (Hin : "Marthandam" ∈ TrainModel.DESTINATIONS).
  { unfold TrainModel.DESTINATIONS. repeat constructor. }
  split; [exact Hin | exact (encoder_round_trip _ _ Hin)].
Defined.

(* ===================================================================== *)
(** ** The prediction endpoint *)
(* ===================================================================== *)

Section PredictFacts.
Context `{Builtins}.
Import App.

(** The source's test on a categorical field is the request-level one. *)
Lemma str_check (data : gmap string pyval) (key : string) (vocabulary : list string) :
  "" ∉ vocabulary ->
  negb (Py.truthy (default PNone (data !! key)))
  || negb (Py.in_strs (default PNone (data !! key)) vocabulary)
  = negb (Request.str_field_in data key vocabulary).
Proof.
  intros Hne. unfold Request.str_field_in.
  destruct (data !! key) as [[| b | n | x | | neg | s | items | items] |];
    cbn [default Py.in_strs negb]; try apply orb_true_r.
  destruct s as [| c s]; [| reflexivity].
  cbn. symmetry. apply negb_true_iff. by apply bool_decide_eq_false.
Qed.

Lemma bus_check (data : gmap string pyval) :
  negb (Py.truthy (default PNone (data !! "bus_number")))
  || negb (Py.in_strs (default PNone (data !! "bus_number")) valid_buses)
  = negb (Request.bus_ok data).
Proof. apply str_check. apply (bool_decide_unpack _). vm_compute. exact I. Qed.

Lemma destination_check (data : gmap string pyval) :
  negb (Py.truthy (default PNone (data !! "destination")))
  || negb (Py.in_strs (default PNone (data !! "destination")) valid_destinations)
  = negb (Request.destination_ok data).
Proof. apply str_check. apply (bool_decide_unpack _). vm_compute. exact I. Qed.

Lemma day_check (data : gmap string pyval) :
  negb (Py.in_strs (default (PStr "Monday") (data !! "day_of_week")) valid_days)
  = negb (Request.day_ok data).
Proof.
  unfold Request.day_ok.
  by destruct (data !! "day_of_week") as [[| b | n | x | | neg | s | items | items] |].
Qed.

Lemma hour_check (data : gmap string pyval) :
  Py.is_None (default PNone (data !! "time_period"))
  || negb (Py.isinstance_int (default PNone (data !! "time_period")))
  || (Py.int_value (default PNone (data !! "time_period")) <? 0)%Z
  || (Py.int_value (default PNone (data !! "time_period")) >? 23)%Z
  = negb (Request.hour_ok data).
Proof.
  unfold Request.hour_ok.
  destruct (data !! "time_period") as [[| b | n | x | | neg | s | items | items] |];
    try reflexivity.
  - by destruct b.
  - cbn. rewrite Z.gtb_ltb.
    destruct (n <? 0)%Z eqn:H0; destruct (23 <? n)%Z eqn:H23;
      destruct (0 <=? n)%Z eqn:H0'; destruct (n <=? 23)%Z eqn:H23';
      try reflexivity; lia.
Qed.

Lemma stop_check (stop : Z) :
  (stop <? 1)%Z || (stop >? 7)%Z = negb (Request.stop_ok stop).
Proof.
  unfold Request.stop_ok. rewrite Z.gtb_ltb.
  destruct (stop <? 1)%Z eqn:H1; destruct (7 <? stop)%Z eqn:H7;
    destruct (1 <=? stop)%Z eqn:H1'; destruct (stop <=? 7)%Z eqn:H7';
    try reflexivity; lia.
Qed.

(** When the coercion of [stop_sequence] raises, nothing else has run. *)
Lemma predict_coercion_raises (data : gmap string pyval) (w : world) (e : exn) :
  Py.int (default (PInt 1) (data !! "stop_sequence")) = Raise e ->
  predict data w
  = (Ok (error_response ("Prediction error: " +:+ str_exn e) 500), w).
Proof.
  intros Hcoerce. unfold predict, try_except, predict_body.
  unfold bind at 1. unfold lift at 1. rewrite Hcoerce. reflexivity.
Qed.

(** After a successful coercion the five checks run in the order bus,
    destination, day, hour, stop; the first one that fails answers. *)
Lemma predict_rejects (data : gmap string pyval) (w : world) (stop : Z) :
  Py.int (default (PInt 1) (data !! "stop_sequence")) = Ok stop ->
  Request.bus_ok data && Request.destination_ok data && Request.day_ok data
  && Request.hour_ok data && Request.stop_ok stop = false ->
  exists msg,
    predict data w = (Ok (error_response msg 400), w)
    /\ (Request.bus_ok data = false /\ msg = Request.bus_message
        \/ Request.bus_ok data = true /\ Request.destination_ok data = false
           /\ msg = Request.destination_message
        \/ Request.bus_ok data = true /\ Request.destination_ok data = true
           /\ Request.day_ok data = false /\ msg = Request.day_message
        \/ Request.bus_ok data = true /\ Request.destination_ok data = true
           /\ Request.day_ok data = true /\ Request.hour_ok data = false
           /\ msg = Request.hour_message
        \/ Request.bus_ok data = true /\ Request.destination_ok data = true
           /\ Request.day_ok data = true /\ Request.hour_ok data = true
           /\ Request.stop_ok stop = false /\ msg = Request.stop_message).
Proof.
  intros Hcoerce Hbad. unfold predict, try_except, predict_body.
  unfold bind at 1. unfold lift at 1. rewrite Hcoerce. cbv beta iota.
  rewrite bus_check, destination_check, day_check, hour_check, stop_check.
  destruct (Request.bus_ok data).
  2: { exists Request.bus_message. split; [reflexivity | tauto]. }
  destruct (Request.destination_ok data).
  2: { exists Request.destination_message. split; [reflexivity | tauto]. }
  destruct (Request.day_ok data).
  2: { exists Request.day_message. split; [reflexivity | tauto]. }
  destruct (Request.hour_ok data).
  2: { exists Request.hour_message. split; [reflexivity | tauto]. }
  destruct (Request.stop_ok stop).
  2: { exists Request.stop_message. split; [reflexivity | tauto]. }
  discriminate Hbad.
Qed.

(** One call on an encoder that knows the value: the code comes back and the
    call is logged. *)
Lemma encoder_transform_ok (key : string) (y : pyval) (w : world)
    (le : Sklearn.LabelEncoder) (code : Z) :
  encoders (w_globals w) !! key = Some le ->
  Sklearn.LabelEncoder_transform le y = Ok code ->
  encoder_transform key y w
  = (Ok code, {| w_globals := w_globals w;
                 w_calls := w_calls w ++ [EncoderTransform key y] |}).
Proof.
  intros Hkey Hcode. unfold encoder_transform, bind, read_global, getitem, log, lift.
  rewrite Hkey. cbn. by rewrite Hcode.
Qed.

(** The request is served when the checks pass and the artifacts cover it. *)
Lemma predict_serves (data : gmap string pyval) (w : world) (stop : Z) :
  Py.int (default (PInt 1) (data !! "stop_sequence")) = Ok stop ->
  Request.bus_ok data && Request.destination_ok data && Request.day_ok data
  && Request.hour_ok data && Request.stop_ok stop = true ->
  Request.artifacts_cover (w_globals w) data ->
  exists (b d k : Z) (body : gmap string pyval) (w' : world),
    (exists le, encoders (w_globals w) !! "bus_encoder" = Some le
       /\ Sklearn.LabelEncoder_transform le (default PNone (data !! "bus_number"))
          = Ok b)
    /\ (exists le, encoders (w_globals w) !! "destination_encoder" = Some le
          /\ Sklearn.LabelEncoder_transform le (default PNone (data !! "destination"))
             = Ok d)
    /\ (exists le, encoders (w_globals w) !! "day_encoder" = Some le
          /\ Sklearn.LabelEncoder_transform le
               (default (PStr "Monday") (data !! "day_of_week")) = Ok k)
    /\ predict data w = (Ok (body, 200%Z), w')
    /\ body !! "predicted_arrival_time"
       = Some (PFloat
                 (Np.round
                    (Request.linear_output (w_globals w)
                       [b; d; k;
                        Py.int_value (default PNone (data !! "time_period"));
                        stop]) 2))
    /\ w_globals w' = w_globals w.
Proof.
  intros Hcoerce Hok (Hbus & Hdest & Hday & Hmean & Hscale & _ & Hcoef).
  destruct Hbus as (leb & sb & Hkb & Hfb & Hinb).
  destruct Hdest as (led & sd & Hkd & Hfd & Hind).
  destruct Hday as (lek & sk & Hkk & Hfk & Hink).
  destruct (LabelEncoder_transform_inverse leb sb Hinb) as (b & _ & Hb & _).
  destruct (LabelEncoder_transform_inverse led sd Hind) as (d & _ & Hd & _).
  destruct (LabelEncoder_transform_inverse lek sk Hink) as (k & _ & Hk & _).
  repeat (apply andb_prop in Hok as [Hok ?]).
  exists b, d, k.
  unfold predict, try_except, predict_body.
  unfold bind at 1. unfold lift at 1. rewrite Hcoerce. cbv beta iota.
  rewrite bus_check, destination_check, day_check, hour_check, stop_check.
  repeat match goal with Hc : _ = true |- _ => rewrite Hc; clear Hc end.
  cbv beta iota delta [negb].
  rewrite Hfb, Hfd, Hfk. cbn [from_option id].
  unfold bind at 1.
  erewrite encoder_transform_ok; [| exact Hkb | exact Hb]. cbv beta iota.
  unfold bind at 1.
  erewrite encoder_transform_ok; [| exact Hkd | exact Hd]. cbv beta iota.
  unfold bind at 1.
  erewrite encoder_transform_ok; [| exact Hkk | exact Hk]. cbv beta iota.
  unfold bind at 1.
  unfold scaler_transform at 1, model_predict at 1.
  unfold bind, read_global, log, lift. cbn [w_globals w_calls].
  unfold Sklearn.StandardScaler_transform.
  rewrite bool_decide_eq_true_2
    by (rewrite Hmean, Hscale; split; reflexivity).
  cbv beta iota.
  unfold Sklearn.Ridge_predict.
  rewrite bool_decide_eq_true_2
    by (rewrite !length_zip_with, Hmean, Hscale, Hcoef; reflexivity).
  unfold ret. eexists _, _.
  split; [by exists leb |]. split; [by exists led |]. split; [by exists lek |].
  split; [reflexivity |]. split; [| reflexivity].
  reflexivity.
Qed.

End PredictFacts.

(* ===================================================================== *)
(** ** Views that only read the artifacts *)
(* ===================================================================== *)

Section ReadOnly.
Import App.

Lemma readonly_ret {A} (a : A) : readonly (ret a).
Proof. intros w. split; [reflexivity | intros w' _; reflexivity]. Qed.

Lemma readonly_raise {A} (e : exn) : readonly (@raise A e).
Proof. intros w. split; [reflexivity | intros w' _; reflexivity]. Qed.

Lemma readonly_lift {A} (r : result A) : readonly (lift r).
Proof. intros w. split; [reflexivity | intros w' _; reflexivity]. Qed.

Lemma readonly_log (c : call) : readonly (log c).
Proof. intros w. split; [reflexivity | intros w' _; reflexivity]. Qed.

Lemma readonly_read_global {A} (proj : globals -> A) : readonly (read_global proj).
Proof.
  intros w. split; [reflexivity |].
  intros w' Hg. unfold read_global. cbn. by rewrite Hg.
Qed.

Lemma readonly_getitem {V} (d : gmap string V) (key : string) :
  readonly (getitem d key).
Proof.
  unfold getitem. destruct (d !! key); [apply readonly_ret | apply readonly_raise].
Qed.

Lemma readonly_bind {A B} (c : Py A) (k : A -> Py B) :
  readonly c -> (forall a, readonly (k a)) -> readonly (bind c k).
Proof.
  intros Hc Hk w. destruct (Hc w) as [Hg Hr]. unfold bind. split.
  - destruct (c w) as [[a | e] w1]; cbn in *; [| exact Hg].
    destruct (Hk a w1) as [Hg1 _]. congruence.
  - intros w' Hw'. specialize (Hr w' Hw').
    destruct (Hc w') as [Hg' _].
    destruct (c w) as [[a | e] w1]; destruct (c w') as [[a' | e'] w1'];
      cbn in *; try discriminate; try congruence.
    injection Hr as ->. destruct (Hk a w1) as [_ Hr1].
    apply Hr1. congruence.
Qed.

Lemma readonly_try_except {A} (c : Py A) (handler : exn -> Py A) :
  readonly c -> (forall e, readonly (handler e)) -> readonly (try_except c handler).
Proof.
  intros Hc Hh w. destruct (Hc w) as [Hg Hr]. unfold try_except. split.
  - destruct (c w) as [[a | e] w1]; cbn in *; [exact Hg |].
    destruct (Hh e w1) as [Hg1 _]. congruence.
  - intros w' Hw'. specialize (Hr w' Hw').
    destruct (Hc w') as [Hg' _].
    destruct (c w) as [[a | e] w1]; destruct (c w') as [[a' | e'] w1'];
      cbn in *; try discriminate; try congruence.
    injection Hr as ->. destruct (Hh e w1) as [_ Hr1].
    apply Hr1. congruence.
Qed.

Lemma readonly_if {A} (b : bool) (c1 c2 : Py A) :
  readonly c1 -> readonly c2 -> readonly (if b then c1 else c2).
Proof. by destruct b. Qed.

End ReadOnly.

Create HintDb readonly.
#[export] Hint Resolve readonly_ret readonly_raise readonly_lift readonly_log
  readonly_read_global readonly_getitem readonly_if : readonly.

(** Decompose a monadic program into its read-only primitives. *)
Ltac solve_readonly :=
  repeat first
    [ apply readonly_bind; [| intros ?]
    | apply readonly_try_except; [| intros ?]
    | apply readonly_if
    | solve [auto with readonly] ].

Section PredictReadOnly.
Context `{Builtins}.
Import App.

Lemma readonly_encoder_transform (key : string) (y : pyval) :
  readonly (encoder_transform key y).
Proof. unfold encoder_transform. solve_readonly. Qed.

Lemma readonly_scaler_transform (X : list Q) : readonly (scaler_transform X).
Proof. unfold scaler_transform. solve_readonly. Qed.

Lemma readonly_model_predict (X : list Q) : readonly (model_predict X).
Proof. unfold model_predict. solve_readonly. Qed.

Lemma readonly_predict (data : gmap string pyval) : readonly (predict data).
Proof.
  unfold predict, predict_body.
  pose proof readonly_encoder_transform. pose proof readonly_scaler_transform.
  pose proof readonly_model_predict.
  solve_readonly.
Qed.

End PredictReadOnly.

Section PredictOutcomes.
Context `{Builtins}.
Import App.

(** Past the five checks the answer is a prediction (200) or, when an
    artifact raises, the generic error (500). *)
Lemma predict_passed_status (data : gmap string pyval) (w : world) (stop : Z) :
  Py.int (default (PInt 1) (data !! "stop_sequence")) = Ok stop ->
  Request.bus_ok data && Request.destination_ok data && Request.day_ok data
  && Request.hour_ok data && Request.stop_ok stop = true ->
  exists body st w',
    predict data w = (Ok (body, st), w') /\ (st = 200 \/ st = 500)%Z.
Proof.
  intros Hcoerce Hok. repeat (apply andb_prop in Hok as [Hok ?]).
  unfold predict, try_except, predict_body.
  unfold bind at 1. unfold lift at 1. rewrite Hcoerce. cbv beta iota.
  rewrite bus_check, destination_check, day_check, hour_check, stop_check.
  repeat match goal with Hc : _ = true |- _ => rewrite Hc; clear Hc end.
  cbv beta iota delta [negb].
  unfold bind at 1.
  destruct (encoder_transform "bus_encoder" _ w) as [[b | e] w1];
    [| eexists _, _, _; split; [reflexivity | by right]].
  unfold bind at 1.
  destruct (encoder_transform "destination_encoder" _ w1) as [[d | e] w2];
    [| eexists _, _, _; split; [reflexivity | by right]].
  unfold bind at 1.
  destruct (encoder_transform "day_encoder" _ w2) as [[k | e] w3];
    [| eexists _, _, _; split; [reflexivity | by right]].
  unfold bind at 1.
  destruct (scaler_transform _ w3) as [[X | e] w4];
    [| eexists _, _, _; split; [reflexivity | by right]].
  unfold bind at 1.
  destruct (model_predict X w4) as [[y | e] w5];
    [| eexists _, _, _; split; [reflexivity | by right]].
  eexists _, _, _; split; [reflexivity | by left].
Qed.

Lemma response_status_inj (b1 b2 : gmap string pyval) (s1 s2 : Z) :
  @Ok response (b1, s1) = Ok (b2, s2) -> s1 = s2.
Proof.
  intros Heq.
  apply (f_equal (fun r : result response =>
                    match r with Ok (_, st) => st | Raise _ => 0%Z end)) in Heq.
  exact Heq.
Qed.

Lemma error_response_inj (m1 m2 : string) (s1 s2 : Z) :
  Ok (error_response m1 s1) = Ok (error_response m2 s2) -> m1 = m2.
Proof.
  intros Heq.
  apply (f_equal (fun r : result response =>
                    match r with
                    | Ok (body, _) => body !! "error"
                    | Raise _ => None
                    end)) in Heq.
  unfold error_response in Heq. rewrite !lookup_singleton_eq in Heq.
  congruence.
Qed.

(** A request whose day is acceptable is never answered with the day error. *)
Lemma predict_not_day_error (data : gmap string pyval) (w : world) :
  Request.day_ok data = true ->
  fst (predict data w) <> Ok (error_response Request.day_message 400).
Proof.
  intros Hday.
  destruct (Py.int (default (PInt 1) (data !! "stop_sequence"))) as [stop | e] eqn:Hcoerce.
  - destruct (Request.bus_ok data && Request.destination_ok data
              && Request.day_ok data && Request.hour_ok data
              && Request.stop_ok stop) eqn:Hok.
    + destruct (predict_passed_status data w stop Hcoerce Hok)
        as (body & st & w' & -> & Hst).
      cbn. intros Heq%response_status_inj. lia.
    + destruct (predict_rejects data w stop Hcoerce Hok) as (msg & -> & Hmsg).
      cbn. intros ->%error_response_inj.
      destruct Hmsg as [[_ Hm] | [(_ & _ & Hm) | [(_ & _ & Hd & _)
                       | [(_ & _ & _ & _ & Hm) | (_ & _ & _ & _ & _ & Hm)]]]];
        first [discriminate Hm | congruence].
  - rewrite (predict_coercion_raises data w e Hcoerce). cbn.
    intros Heq%response_status_inj. discriminate Heq.
Qed.

End PredictOutcomes.

(* ===================================================================== *)
(** ** Properties of [predict] *)
(* ===================================================================== *)



Lemma artifacts_mild_cover_scenario_A :
  Request.artifacts_cover Examples.artifacts_mild Examples.scenario_A.
Proof.
  unfold Request.artifacts_cover.
  split; [| split; [| split; [| repeat split]]].
  - exists (Sklearn.LabelEncoder_fit TrainModel.BUS_NUMBERS), "BUS001".
    split; [vm_compute; reflexivity |]. split; [vm_compute; reflexivity |].
    apply LabelEncoder_fit_classes. repeat constructor.
  - exists (Sklearn.LabelEncoder_fit TrainModel.DESTINATIONS), "Nagercoil".
    split; [vm_compute; reflexivity |]. split; [vm_compute; reflexivity |].
    apply LabelEncoder_fit_classes. repeat constructor.
  - exists (Sklearn.LabelEncoder_fit TrainModel.DAYS_OF_WEEK), "Monday".
    split; [vm_compute; reflexivity |]. split; [vm_compute; reflexivity |].
    apply LabelEncoder_fit_classes. repeat constructor.
  - repeat constructor; discriminate.
Qed.






(** C9.  A request without [day_of_week] is answered exactly as the same
    request with [day_of_week = "Monday"], and never with the day error. *)
Theorem absent_day_defaults_to_monday `{Builtins}
    (data : gmap string pyval) (w : App.world) :
  data !! "day_of_week" = None ->
  App.predict data w = App.predict (<["day_of_week" := PStr "Monday"]> data) w
  /\ fst (App.predict data w) <> Ok (App.error_response Request.day_message 400).
Proof.
  intros Hnone. split.
  - unfold App.predict, App.predict_body.
    rewrite lookup_insert_eq, Hnone.
    rewrite !lookup_insert_ne by discriminate. reflexivity.
  - apply predict_not_day_error. unfold Request.day_ok. by rewrite Hnone.
Qed.

Lemma absent_day_defaults_to_monday_witness :
  Examples.scenario_no_day !! "day_of_week" = None
  /\ App.predict (H := Interp.builtins) Examples.scenario_no_day
       (Examples.fresh Examples.artifacts_mild)
     = App.predict (H := Interp.builtins)
         (<["day_of_week" := PStr "Monday"]> Examples.scenario_no_day)
         (Examples.fresh Examples.artifacts_mild).
Proof.
  assert (Hnone : Examples.scenario_no_day !! "day_of_week" = None)
    by apply lookup_delete_eq.
  split; [exact Hnone |].
  exact (proj1 (absent_day_defaults_to_monday (H := Interp.builtins)
                  Examples.scenario_no_day
                  (Examples.fresh Examples.artifacts_mild) Hnone)).
Defined.

(** C10.  [stop_sequence] is coerced by [int] before any check: when the field
    is present and [int] raises on it, the answer is the generic prediction
    error with status 500 whatever the other fields are, and the world is
    untouched; when the field is absent the request is answered as with
    [stop_sequence = 1]. *)
Theorem stop_sequence_coerced_first `{Builtins}
    (data : gmap string pyval) (w : App.world) (v : pyval) (e : exn) :
  data !! "stop_sequence" = Some v ->
  Py.int v = Raise e ->
  App.predict data w
  = (Ok (App.error_response ("Prediction error: " +:+ str_exn e) 500), w)
  /\ App.predict (delete "stop_sequence" data) w
     = App.predict (<["stop_sequence" := PInt 1]> data) w.
Proof.
  intros Hfield Hraise. split.
  - apply predict_coercion_raises. by rewrite Hfield.
  - unfold App.predict, App.predict_body.
    rewrite lookup_delete_eq, lookup_insert_eq.
    rewrite !lookup_delete_ne by discriminate.
    rewrite !lookup_insert_ne by discriminate. reflexivity.
Qed.

Lemma stop_sequence_coerced_first_witness :
  Examples.scenario_late_garbled !! "stop_sequence" = Some (PStr "abc")
  /\ Py.int (H := Interp.builtins) (PStr "abc") = Raise (ValueError_int (PStr "abc"))
  /\ App.predict (H := Interp.builtins) Examples.scenario_late_garbled
       (Examples.fresh Examples.artifacts_mild)
     = (Ok (App.error_response
              ("Prediction error: " +:+ Interp.str_exn (ValueError_int (PStr "abc")))
              500),
        Examples.fresh Examples.artifacts_mild).
Proof.
  assert (Hfield : Examples.scenario_late_garbled !! "stop_sequence"
                   = Some (PStr "abc")) by (vm_compute; reflexivity).
  assert (Hraise : Py.int (H := Interp.builtins) (PStr "abc")
                   = Raise (ValueError_int (PStr "abc"))) by reflexivity.
  split; [exact Hfield |]. split; [exact Hraise |].
  exact (proj1 (stop_sequence_coerced_first (H := Interp.builtins)
                  Examples.scenario_late_garbled
                  (Examples.fresh Examples.artifacts_mild) _ _ Hfield Hraise)).
Defined.

(* ===================================================================== *)
(** ** Further properties of [predict] *)
(* ===================================================================== *)

Section PredictSteps.
Context `{Builtins}.
Import App.

(** A call on an encoder: a missing key raises before anything is logged;
    otherwise the call is logged and the encoder's answer is returned. *)
Lemma encoder_transform_inv (key : string) (y : pyval) (w : world) :
  (encoders (w_globals w) !! key = None
   /\ encoder_transform key y w = (Raise (KeyError key), w))
  \/ (exists le, encoders (w_globals w) !! key = Some le
        /\ encoder_transform key y w
           = (Sklearn.LabelEncoder_transform le y,
              {| w_globals := w_globals w;
                 w_calls := w_calls w ++ [EncoderTransform key y] |})).
Proof.
  unfold encoder_transform, bind, read_global, getitem, log, lift, raise, ret.
  destruct (encoders (w_globals w) !! key) as [le |] eqn:Hkey.
  - right. exists le. split; [reflexivity |]. cbn. reflexivity.
  - left. split; reflexivity.
Qed.

Lemma scaler_transform_eq (X : list Q) (w : world) :
  scaler_transform X w
  = (Sklearn.StandardScaler_transform (scaler (w_globals w)) X,
     {| w_globals := w_globals w; w_calls := w_calls w ++ [ScalerTransform X] |}).
Proof. reflexivity. Qed.

Lemma model_predict_eq (X : list Q) (w : world) :
  model_predict X w
  = (Sklearn.Ridge_predict (model (w_globals w)) X,
     {| w_globals := w_globals w; w_calls := w_calls w ++ [ModelPredict X] |}).
Proof. reflexivity. Qed.

End PredictSteps.

Section PredictOutcome.
Context `{Builtins}.
Import App.

(** Past the five checks: either some artifact call raises and the answer is
    the generic 500, or all five calls succeed in order and the answer is the
    prediction. *)
Lemma predict_passed_outcome (data : gmap string pyval) (w : world) (stop : Z) :
  Py.int (default (PInt 1) (data !! "stop_sequence")) = Ok stop ->
  Request.bus_ok data && Request.destination_ok data && Request.day_ok data
  && Request.hour_ok data && Request.stop_ok stop = true ->
  (exists e w',
      predict data w
      = (Ok (error_response ("Prediction error: " +:+ str_exn e) 500), w')
      /\ w_globals w' = w_globals w)
  \/ (exists (b d k : Z) (Xs : list Q) (y : Q) leb led lek,
        encoders (w_globals w) !! "bus_encoder" = Some leb
        /\ Sklearn.LabelEncoder_transform leb (default PNone (data !! "bus_number"))
           = Ok b
        /\ encoders (w_globals w) !! "destination_encoder" = Some led
        /\ Sklearn.LabelEncoder_transform led (default PNone (data !! "destination"))
           = Ok d
        /\ encoders (w_globals w) !! "day_encoder" = Some lek
        /\ Sklearn.LabelEncoder_transform lek
             (default (PStr "Monday") (data !! "day_of_week")) = Ok k
        /\ Sklearn.StandardScaler_transform (scaler (w_globals w))
             (inject_Z <$> [b; d; k;
                            Py.int_value (default PNone (data !! "time_period"));
                            stop]) = Ok Xs
        /\ Sklearn.Ridge_predict (model (w_globals w)) Xs = Ok y
        /\ predict data w
           = (Ok (success_body data stop (Np.round y 2), 200%Z),
              {| w_globals := w_globals w;
                 w_calls := w_calls w ++ served_calls data b d k stop Xs |})).
Proof.
  intros Hcoerce Hok. repeat (apply andb_prop in Hok as [Hok ?]).
  remember (predict data w) as p eqn:Hp.
  unfold predict, try_except, predict_body in Hp.
  unfold bind at 1 in Hp. unfold lift at 1 in Hp. rewrite Hcoerce in Hp.
  cbv beta iota in Hp.
  rewrite bus_check, destination_check, day_check, hour_check, stop_check in Hp.
  repeat match goal with Hc : _ = true |- _ => rewrite Hc in Hp; clear Hc end.
  cbv beta iota delta [negb] in Hp.
  unfold bind at 1 in Hp.
  destruct (encoder_transform_inv "bus_encoder"
              (default PNone (data !! "bus_number")) w)
    as [[_ He] | (leb & Hkb & He)]; rewrite He in Hp; clear He;
    [left; subst p; eexists _, _; split; reflexivity |].
  destruct (Sklearn.LabelEncoder_transform leb _) as [b | e] eqn:Hb;
    [| left; subst p; eexists _, _; split; reflexivity].
  cbv beta iota in Hp. unfold bind at 1 in Hp.
  match type of Hp with
  | context [encoder_transform "destination_encoder" ?y ?w1] =>
      destruct (encoder_transform_inv "destination_encoder" y w1)
        as [[_ He] | (led & Hkd & He)]; rewrite He in Hp; clear He
  end; [left; subst p; eexists _, _; split; reflexivity |].
  destruct (Sklearn.LabelEncoder_transform led _) as [d | e] eqn:Hd;
    [| left; subst p; eexists _, _; split; reflexivity].
  cbv beta iota in Hp. unfold bind at 1 in Hp.
  match type of Hp with
  | context [encoder_transform "day_encoder" ?y ?w1] =>
      destruct (encoder_transform_inv "day_encoder" y w1)
        as [[_ He] | (lek & Hkk & He)]; rewrite He in Hp; clear He
  end; [left; subst p; eexists _, _; split; reflexivity |].
  destruct (Sklearn.LabelEncoder_transform lek _) as [k | e] eqn:Hk;
    [| left; subst p; eexists _, _; split; reflexivity].
  cbv beta iota in Hp. unfold bind at 1 in Hp. rewrite scaler_transform_eq in Hp.
  cbn [w_globals w_calls] in Hp.
  destruct (Sklearn.StandardScaler_transform _ _) as [Xs | e] eqn:HX;
    [| left; subst p; eexists _, _; split; reflexivity].
  cbv beta iota in Hp. unfold bind at 1 in Hp. rewrite model_predict_eq in Hp.
  cbn [w_globals w_calls] in Hp.
  destruct (Sklearn.Ridge_predict _ Xs) as [y | e] eqn:Hy;
    [| left; subst p; eexists _, _; split; reflexivity].
  right. exists b, d, k, Xs, y, leb, led, lek.
  repeat (split; [assumption |]).
  cbv beta iota in Hp. unfold ret in Hp. rewrite <- !app_assoc in Hp.
  subst p. reflexivity.
Qed.

End PredictOutcome.

Section PredictAnswers.
Context `{Builtins}.
Import App.

Lemma str_field_in_true (data : gmap string pyval) (key : string) (l : list string) :
  Request.str_field_in data key l = true ->
  exists s, data !! key = Some (PStr s) /\ s ∈ l.
Proof.
  unfold Request.str_field_in.
  destruct (data !! key) as [[| b | n | x | | neg | s | items | items] |];
    try discriminate.
  intros Hs. exists s. split; [reflexivity | exact (bool_decide_eq_true_1 _ Hs)].
Qed.

Lemma success_body_fields (data : gmap string pyval) (stop : Z) (v : Q) :
  success_body data stop v !! "success" = Some (PBool true)
  /\ success_body data stop v !! "predicted_arrival_time" = Some (PFloat v)
  /\ success_body data stop v !! "unit" = Some (PStr "minutes")
  /\ success_body data stop v !! "bus_number"
     = Some (default PNone (data !! "bus_number"))
  /\ success_body data stop v !! "destination"
     = Some (default PNone (data !! "destination"))
  /\ success_body data stop v !! "day_of_week"
     = Some (default (PStr "Monday") (data !! "day_of_week"))
  /\ success_body data stop v !! "time_period"
     = Some (default PNone (data !! "time_period"))
  /\ success_body data stop v !! "stop_sequence" = Some (PInt stop)
  /\ success_body data stop v !! "error" = None.
Proof. repeat split. Qed.

(** What a 200 answer means: the coercion succeeded, the five checks passed,
    all five artifact calls succeeded, and the body and the call log are the
    ones built from their results. *)
Lemma predict_200_inv (data : gmap string pyval) (w w' : world)
    (body : gmap string pyval) :
  predict data w = (Ok (body, 200%Z), w') ->
  exists (stop b d k : Z) (Xs : list Q) (y : Q) leb led lek,
    Py.int (default (PInt 1) (data !! "stop_sequence")) = Ok stop
    /\ Request.bus_ok data && Request.destination_ok data && Request.day_ok data
       && Request.hour_ok data && Request.stop_ok stop = true
    /\ encoders (w_globals w) !! "bus_encoder" = Some leb
    /\ Sklearn.LabelEncoder_transform leb (default PNone (data !! "bus_number"))
       = Ok b
    /\ encoders (w_globals w) !! "destination_encoder" = Some led
    /\ Sklearn.LabelEncoder_transform led (default PNone (data !! "destination"))
       = Ok d
    /\ encoders (w_globals w) !! "day_encoder" = Some lek
    /\ Sklearn.LabelEncoder_transform lek
         (default (PStr "Monday") (data !! "day_of_week")) = Ok k
    /\ Sklearn.StandardScaler_transform (scaler (w_globals w))
         (inject_Z <$> [b; d; k;
                        Py.int_value (default PNone (data !! "time_period"));
                        stop]) = Ok Xs
    /\ Sklearn.Ridge_predict (model (w_globals w)) Xs = Ok y
    /\ body = success_body data stop (Np.round y 2)
    /\ w' = {| w_globals := w_globals w;
               w_calls := w_calls w ++ served_calls data b d k stop Xs |}.
Proof.
  intros Hp.
  destruct (Py.int (default (PInt 1) (data !! "stop_sequence")))
    as [stop | e] eqn:Hcoerce.
  2: { rewrite (predict_coercion_raises data w e Hcoerce) in Hp.
       apply (f_equal fst) in Hp. cbn in Hp.
       apply response_status_inj in Hp. discriminate Hp. }
  destruct (Request.bus_ok data && Request.destination_ok data
            && Request.day_ok data && Request.hour_ok data
            && Request.stop_ok stop) eqn:Hok.
  2: { destruct (predict_rejects data w stop Hcoerce Hok) as (msg & Hr & _).
       rewrite Hr in Hp. apply (f_equal fst) in Hp. cbn in Hp.
       apply response_status_inj in Hp. discriminate Hp. }
  destruct (predict_passed_outcome data w stop Hcoerce Hok)
    as [(e & w1 & Hr & _)
       | (b & d & k & Xs & y & leb & led & lek
          & Hkb & Hb & Hkd & Hd & Hkk & Hk & HX & Hy & Hr)].
  { rewrite Hr in Hp. apply (f_equal fst) in Hp. cbn in Hp.
    apply response_status_inj in Hp. discriminate Hp. }
  exists stop, b, d, k, Xs, y, leb, led, lek.
  repeat (split; [first [assumption | reflexivity] |]).
  rewrite Hr in Hp. split; congruence.
Qed.

End PredictAnswers.

(** X1.  [predict] never lets an exception escape: every request is answered
    with status 200, 400 or 500 and the globals are left as they were.  A 200
    body carries [success = true] and no [error]; a 400 body is exactly
    [{error: msg}] with one of the five validation texts and the world is
    untouched; a 500 body is exactly [{error: "Prediction error: ..."}]. *)
Theorem predict_always_answers `{Builtins}
    (data : gmap string pyval) (w : App.world) :
  exists (body : gmap string pyval) (st : Z) (w' : App.world),
    App.predict data w = (Ok (body, st), w')
    /\ App.w_globals w' = App.w_globals w
    /\ ((st = 200%Z /\ body !! "success" = Some (PBool true)
         /\ body !! "error" = None)
        \/ (st = 400%Z /\ w' = w
            /\ exists msg, body = {[ "error" := PStr msg ]}
                 /\ msg ∈ [Request.bus_message; Request.destination_message;
                           Request.day_message; Request.hour_message;
                           Request.stop_message])
        \/ (st = 500%Z
            /\ exists e, body = {[ "error" := PStr ("Prediction error: " +:+ str_exn e) ]})).
Proof.
  destruct (Py.int (default (PInt 1) (data !! "stop_sequence")))
    as [stop | e] eqn:Hcoerce.
  2: { eexists _, _, _. split; [exact (predict_coercion_raises data w e Hcoerce) |].
       split; [reflexivity |]. right. right. split; [reflexivity |]. by exists e. }
  destruct (Request.bus_ok data && Request.destination_ok data
            && Request.day_ok data && Request.hour_ok data
            && Request.stop_ok stop) eqn:Hok.
  - destruct (predict_passed_outcome data w stop Hcoerce Hok)
      as [(e & w1 & Hr & Hg)
         | (b & d & k & Xs & y & leb & led & lek & _ & _ & _ & _ & _ & _ & _ & _ & Hr)].
    + eexists _, _, _. split; [exact Hr |]. split; [exact Hg |].
      right. right. split; [reflexivity |]. by exists e.
    + eexists _, _, _. split; [exact Hr |]. split; [reflexivity |].
      left. split; [reflexivity |]. split; apply success_body_fields.
  - destruct (predict_rejects data w stop Hcoerce Hok) as (msg & Hr & Hmsg).
    eexists _, _, _. split; [exact Hr |]. split; [reflexivity |].
    right. left. split; [reflexivity |]. split; [reflexivity |].
    exists msg. split; [reflexivity |].
    destruct Hmsg as [[_ ->] | [(_ & _ & ->) | [(_ & _ & _ & ->)
                     | [(_ & _ & _ & _ & ->) | (_ & _ & _ & _ & _ & ->)]]]];
      set_solver.
Qed.

(** The fields of a request that was answered 200. *)
Lemma predict_200_fields `{Builtins}
    (data : gmap string pyval) (w w' : App.world) (body : gmap string pyval) :
  App.predict data w = (Ok (body, 200%Z), w') ->
  (exists s, data !! "bus_number" = Some (PStr s) /\ s ∈ App.valid_buses)
  /\ (exists s, data !! "destination" = Some (PStr s) /\ s ∈ App.valid_destinations)
  /\ (data !! "day_of_week" = None
      \/ exists s, data !! "day_of_week" = Some (PStr s) /\ s ∈ App.valid_days)
  /\ ((exists h, data !! "time_period" = Some (PInt h) /\ (0 <= h <= 23)%Z)
      \/ exists b, data !! "time_period" = Some (PBool b))
  /\ exists stop, Py.int (default (PInt 1) (data !! "stop_sequence")) = Ok stop
       /\ (1 <= stop <= 7)%Z.
Proof.
  intros Hp.
  destruct (predict_200_inv data w w' body Hp)
    as (stop & b & d & k & Xs & y & leb & led & lek & Hcoerce & Hok & _).
  repeat (apply andb_prop in Hok as [Hok ?]).
  split; [by apply str_field_in_true |]. split; [by apply str_field_in_true |].
  split; [| split].
  - unfold Request.day_ok in *.
    destruct (data !! "day_of_week") as [[| ? | ? | ? | | ? | s | ? | ?] |];
      try discriminate; [right | by left].
    exists s. split; [reflexivity |]. by apply (bool_decide_eq_true_1 _).
  - unfold Request.hour_ok in *.
    destruct (data !! "time_period") as [[| bb | h | ? | | ? | ? | ? | ?] |];
      try discriminate.
    + right. by exists bb.
    + left. exists h. split; [reflexivity | lia].
  - exists stop. split; [exact Hcoerce |]. unfold Request.stop_ok in *. lia.
Qed.

(** X2.  A 200 answer is given only to a request whose bus and destination are
    strings of the declared lists, whose day is absent or a string of the
    declared list, whose hour is an integer of [0, 23] or a JSON boolean, and
    whose stop position [int] reads as an integer of [1, 7]. *)
Theorem predict_success_requires_valid `{Builtins}
    (data : gmap string pyval) (w w' : App.world) (body : gmap string pyval) :
  App.predict data w = (Ok (body, 200%Z), w') ->
  (exists s, data !! "bus_number" = Some (PStr s) /\ s ∈ App.valid_buses)
  /\ (exists s, data !! "destination" = Some (PStr s) /\ s ∈ App.valid_destinations)
  /\ (data !! "day_of_week" = None
      \/ exists s, data !! "day_of_week" = Some (PStr s) /\ s ∈ App.valid_days)
  /\ ((exists h, data !! "time_period" = Some (PInt h) /\ (0 <= h <= 23)%Z)
      \/ exists b, data !! "time_period" = Some (PBool b))
  /\ exists stop, Py.int (default (PInt 1) (data !! "stop_sequence")) = Ok stop
       /\ (1 <= stop <= 7)%Z.
Proof. apply predict_200_fields. Qed.

(** Scenario A is served by the mild artifacts. *)
Lemma scenario_A_mild_answer :
  exists body w',
    App.predict (H := Interp.builtins) Examples.scenario_A
      (Examples.fresh Examples.artifacts_mild) = (Ok (body, 200%Z), w').
Proof.
  assert (Hcoerce : Py.int (H := Interp.builtins)
                      (default (PInt 1) (Examples.scenario_A !! "stop_sequence"))
                    = Ok 3%Z) by (vm_compute; reflexivity).
  assert (Hok : Request.bus_ok Examples.scenario_A
                && Request.destination_ok Examples.scenario_A
                && Request.day_ok Examples.scenario_A
                && Request.hour_ok Examples.scenario_A
                && Request.stop_ok 3 = true) by (vm_compute; reflexivity).
  destruct (predict_serves (H := Interp.builtins) Examples.scenario_A
              (Examples.fresh Examples.artifacts_mild) 3 Hcoerce Hok
              artifacts_mild_cover_scenario_A)
    as (b & d & k & body & w' & _ & _ & _ & Hp & _).
  by exists body, w'.
Qed.

Lemma predict_success_requires_valid_witness :
  exists s, Examples.scenario_A !! "bus_number" = Some (PStr s)
            /\ s ∈ App.valid_buses.
Proof.
  destruct scenario_A_mild_answer as (body & w' & Hp).
  exact (proj1 (predict_success_requires_valid (H := Interp.builtins)
                  Examples.scenario_A (Examples.fresh Examples.artifacts_mild)
                  w' body Hp)).
Defined.

(** X3.  A 200 answer echoes the request: [bus_number], [destination] and
    [time_period] as they were sent, [day_of_week] as sent or "Monday" when it
    was absent, and [stop_sequence] as the integer [int] made of it (so "3" and
    3.9 come back as 3); [unit] is "minutes". *)
Theorem predict_success_echoes_request `{Builtins}
    (data : gmap string pyval) (w w' : App.world) (body : gmap string pyval) :
  App.predict data w = (Ok (body, 200%Z), w') ->
  body !! "bus_number" = data !! "bus_number"
  /\ body !! "destination" = data !! "destination"
  /\ body !! "day_of_week" = Some (default (PStr "Monday") (data !! "day_of_week"))
  /\ body !! "time_period" = data !! "time_period"
  /\ (exists stop, Py.int (default (PInt 1) (data !! "stop_sequence")) = Ok stop
        /\ body !! "stop_sequence" = Some (PInt stop))
  /\ body !! "unit" = Some (PStr "minutes").
Proof.
  intros Hp.
  destruct (predict_200_fields data w w' body Hp)
    as ((sb & Hsb & _) & (sd & Hsd & _) & _ & Hhour & _).
  destruct (predict_200_inv data w w' body Hp)
    as (stop & b & d & k & Xs & y & leb & led & lek & Hcoerce & _ & _ & _ & _
        & _ & _ & _ & _ & _ & -> & _).
  destruct (success_body_fields data stop (Np.round y 2))
    as (_ & _ & Hunit & Hbus & Hdest & Hday & Htp & Hstop & _).
  rewrite Hbus, Hdest, Hday, Htp, Hstop, Hunit, Hsb, Hsd.
  repeat (split; [reflexivity |]). split; [| split; [by exists stop | reflexivity]].
  destruct Hhour as [(h & -> & _) | (bb & ->)]; reflexivity.
Qed.

Lemma predict_success_echoes_request_witness :
  exists body w',
    App.predict (H := Interp.builtins) Examples.scenario_A
      (Examples.fresh Examples.artifacts_mild) = (Ok (body, 200%Z), w')
    /\ body !! "bus_number" = Examples.scenario_A !! "bus_number".
Proof.
  destruct scenario_A_mild_answer as (body & w' & Hp).
  exists body, w'. split; [exact Hp |].
  exact (proj1 (predict_success_echoes_request (H := Interp.builtins)
                  Examples.scenario_A (Examples.fresh Examples.artifacts_mild)
                  w' body Hp)).
Defined.



(** X5.  Passing the five checks does not guarantee a prediction: when the
    loaded bus encoder never saw the submitted bus, the answer is the generic
    500 carrying the encoder's exception, after that single encoder call; the
    scaler and the model are not called. *)
Theorem predict_unseen_bus `{Builtins}
    (data : gmap string pyval) (w : App.world) (stop : Z) (s : string)
    (le : Sklearn.LabelEncoder) :
  Py.int (default (PInt 1) (data !! "stop_sequence")) = Ok stop ->
  Request.bus_ok data && Request.destination_ok data && Request.day_ok data
  && Request.hour_ok data && Request.stop_ok stop = true ->
  data !! "bus_number" = Some (PStr s) ->
  App.encoders (App.w_globals w) !! "bus_encoder" = Some le ->
  s ∉ Sklearn.classes_ le ->
  App.predict data w
  = (Ok (App.error_response
           ("Prediction error: " +:+ str_exn (ValueError_unseen_label (PStr s))) 500),
     {| App.w_globals := App.w_globals w;
        App.w_calls := App.w_calls w ++ [App.EncoderTransform "bus_encoder" (PStr s)] |}).
Proof.
  intros Hcoerce Hok Hbus Hkey Hout. repeat (apply andb_prop in Hok as [Hok ?]).
  unfold App.predict, App.try_except, App.predict_body.
  unfold App.bind at 1. unfold App.lift at 1. rewrite Hcoerce. cbv beta iota.
  rewrite bus_check, destination_check, day_check, hour_check, stop_check.
  repeat match goal with Hc : _ = true |- _ => rewrite Hc; clear Hc end.
  cbv beta iota delta [negb].
  rewrite Hbus. cbn [from_option id].
  unfold App.bind at 1.
  destruct (encoder_transform_inv "bus_encoder" (PStr s) w)
    as [[Hnone _] | (le' & Hkey' & ->)]; [congruence |].
  assert (le' = le) as -> by congruence.
  rewrite (LabelEncoder_transform_unseen le s Hout). reflexivity.
Qed.

Lemma predict_unseen_bus_witness :
  ("BUS001" ∉ Sklearn.classes_ (Sklearn.LabelEncoder_fit ["BUS002"; "BUS003"; "BUS002"]))
  /\ Examples.status
       (App.predict (H := Interp.builtins) Examples.scenario_A
          (Examples.fresh Examples2.artifacts_partial)) = Some 500%Z.
Proof.
  assert (Hout : "BUS001" ∉ Sklearn.classes_
                   (Sklearn.LabelEncoder_fit ["BUS002"; "BUS003"; "BUS002"])).
  { apply (bool_decide_unpack _). vm_compute. exact I. }
  split; [exact Hout |].
  assert (Hcoerce : Py.int (H := Interp.builtins)
                      (default (PInt 1) (Examples.scenario_A !! "stop_sequence"))
                    = Ok 3%Z) by (vm_compute; reflexivity).
  assert (Hok : Request.bus_ok Examples.scenario_A
                && Request.destination_ok Examples.scenario_A
                && Request.day_ok Examples.scenario_A
                && Request.hour_ok Examples.scenario_A
                && Request.stop_ok 3 = true) by (vm_compute; reflexivity).
  assert (Hbus : Examples.scenario_A !! "bus_number" = Some (PStr "BUS001"))
    by (vm_compute; reflexivity).
  assert (Hkey : App.encoders
                   (App.w_globals (Examples.fresh Examples2.artifacts_partial))
                 !! "bus_encoder"
                 = Some (Sklearn.LabelEncoder_fit ["BUS002"; "BUS003"; "BUS002"]))
    by (vm_compute; reflexivity).
  unfold Examples.status.
  rewrite (predict_unseen_bus (H := Interp.builtins) Examples.scenario_A
             (Examples.fresh Examples2.artifacts_partial) 3 "BUS001" _
             Hcoerce Hok Hbus Hkey Hout).
  reflexivity.
Defined.

(** X6.  [predict] reads five keys only: setting any other key of the request
    changes neither the answer nor the calls made. *)
Theorem predict_ignores_other_fields `{Builtins}
    (data : gmap string pyval) (w : App.world) (key : string) (v : pyval) :
  key ∉ ["bus_number"; "destination"; "day_of_week"; "time_period"; "stop_sequence"] ->
  App.predict (<[key := v]> data) w = App.predict data w.
Proof.
  intros Hkey.
  assert (Hne : forall k, k ∈ ["bus_number"; "destination"; "day_of_week";
                              "time_period"; "stop_sequence"] ->
                          <[key := v]> data !! k = data !! k).
  { intros k Hk. apply lookup_insert_ne. intros ->. by apply Hkey. }
  unfold App.predict, App.predict_body.
  rewrite !Hne by (repeat constructor). reflexivity.
Qed.

Lemma predict_ignores_other_fields_witness :
  App.predict (H := Interp.builtins) (<["distance" := PFloat 15.5]> Examples.scenario_A)
    (Examples.fresh Examples.artifacts_mild)
  = App.predict (H := Interp.builtins) Examples.scenario_A
      (Examples.fresh Examples.artifacts_mild).
Proof.
  apply (predict_ignores_other_fields (H := Interp.builtins)).
  apply (bool_decide_unpack _). vm_compute. exact I.
Defined.

(** Fractions are cut toward zero: the result is in [1, 7] exactly for the
    rationals of [1, 8). *)
Lemma trunc_stop_ok (x : Q) :
  Request.stop_ok (Py.trunc x) = true <-> 1 <= x < 8.
Proof.
  unfold Request.stop_ok, Py.trunc.
  rewrite andb_true_iff, !Z.leb_le.
  destruct (Qle_bool 0 x) eqn:Hsign.
  - apply Qle_bool_iff in Hsign.
    pose proof (Qfloor_le x) as Hlo. pose proof (Qlt_floor x) as Hhi.
    split.
    + intros [H1 H7]. split.
      * apply Qle_trans with (inject_Z (Qfloor x)); [| exact Hlo].
        replace 1 with (inject_Z 1) by reflexivity. by rewrite <- Zle_Qle.
      * apply Qlt_le_trans with (inject_Z (Qfloor x + 1)); [exact Hhi |].
        replace 8 with (inject_Z 8) by reflexivity. rewrite <- Zle_Qle. lia.
    + intros [H1 H8]. split.
      * change 1%Z with (Qfloor 1). by apply Qfloor_resp_le.
      * assert (Hlt : (Qfloor x < 8)%Z); [| lia].
        rewrite Zlt_Qlt. apply Qle_lt_trans with x; [exact Hlo | exact H8].
  - assert (Hneg : x < 0).
    { apply Qnot_le_lt. intros Hle. apply Qle_bool_iff in Hle. congruence. }
    split.
    + intros [H1 _]. exfalso.
      assert (Hc : (Qceiling x <= 0)%Z).
      { change 0%Z with (Qceiling 0). apply Qceiling_resp_le. lra. }
      lia.
    + intros [H1 _]. lra.
Qed.

(** X7.  A fractional [stop_sequence] is cut toward zero before the range
    check: the request is answered exactly as with the cut integer, which
    passes the check precisely when 1 <= x < 8 (so 7.9 is accepted as 7 and
    0.9 is refused). *)
Theorem predict_fractional_stop `{Builtins}
    (data : gmap string pyval) (w : App.world) (x : Q) :
  App.predict (<["stop_sequence" := PFloat x]> data) w
  = App.predict (<["stop_sequence" := PInt (Py.trunc x)]> data) w
  /\ (Request.stop_ok (Py.trunc x) = true <-> 1 <= x < 8).
Proof.
  split; [| apply trunc_stop_ok].
  unfold App.predict, App.predict_body.
  rewrite !lookup_insert_eq. rewrite !lookup_insert_ne by discriminate.
  reflexivity.
Qed.

Section SamePrediction.
Import App.

Lemma same_prediction_refl (p : result response * world) : same_prediction p p.
Proof.
  split; [reflexivity |]. destruct (fst p) as [[body st] | e]; [| reflexivity].
  by repeat split.
Qed.

Lemma same_prediction_bind {A} (c : Py A) (k1 k2 : A -> Py response) (w : world) :
  (forall a w', same_prediction (k1 a w') (k2 a w')) ->
  same_prediction (bind c k1 w) (bind c k2 w).
Proof.
  intros Hk. unfold bind. destruct (c w) as [[a | e] w1]; [apply Hk |].
  apply same_prediction_refl.
Qed.

Lemma same_prediction_try (c1 c2 : Py response) (h : exn -> Py response) (w : world) :
  same_prediction (c1 w) (c2 w) ->
  same_prediction (try_except c1 h w) (try_except c2 h w).
Proof.
  unfold same_prediction, try_except.
  destruct (c1 w) as [[[b1 s1] | e1] w1]; destruct (c2 w) as [[[b2 s2] | e2] w2];
    cbn; intros [-> Hr]; try contradiction.
  - by split.
  - subst e2. apply same_prediction_refl.
Qed.

Lemma same_prediction_if (b : bool) (c1 c2 d1 d2 : Py response) (w : world) :
  same_prediction (c1 w) (c2 w) -> same_prediction (d1 w) (d2 w) ->
  same_prediction ((if b then c1 else d1) w) ((if b then c2 else d2) w).
Proof. by destruct b. Qed.

End SamePrediction.

(** X8.  A JSON boolean passes the hour check ([bool] is an [int]) and is used
    as hour 1 or 0: the calls made, the status, the predicted value and the
    error text are those of the request with that integer hour. *)
Theorem predict_boolean_hour `{Builtins}
    (data : gmap string pyval) (w : App.world) (b : bool) :
  same_prediction
    (App.predict (<["time_period" := PBool b]> data) w)
    (App.predict (<["time_period" := PInt (Z.b2z b)]> data) w)
  /\ Request.hour_ok (<["time_period" := PBool b]> data) = true.
Proof.
  split; [| unfold Request.hour_ok; by rewrite lookup_insert_eq].
  unfold App.predict, App.predict_body.
  rewrite !lookup_insert_eq. rewrite !lookup_insert_ne by discriminate.
  cbn [from_option id Py.is_None Py.isinstance_int Py.int_value].
  apply same_prediction_try. apply same_prediction_bind. intros stop w1.
  repeat (apply same_prediction_if; [apply same_prediction_refl |]).
  repeat (apply same_prediction_bind; intros ? ?).
  unfold App.ret. split; [reflexivity |]. cbn [fst]. by repeat split.
Qed.

(* ===================================================================== *)
(** ** The test scripts against [predict] *)
(* ===================================================================== *)

Lemma test_new_predictions_data_lookup
    (bus_number destination day time_period stop_seq : pyval) :
  let d := TestNewPredictions.data bus_number destination day time_period stop_seq in
  d !! "bus_number" = Some bus_number
  /\ d !! "destination" = Some destination
  /\ d !! "day_of_week" = Some day
  /\ d !! "time_period" = Some time_period
  /\ d !! "stop_sequence" = Some stop_seq.
Proof. repeat split. Qed.

(** X9.  test_new_predictions.py sends the period of the day as a word
    ("Morning", "Evening", ...).  Whatever the word, and with bus, destination
    and day from the declared lists and a readable stop position, [predict]
    answers 400 with the hour text and calls no artifact: none of the script's
    requests can obtain a prediction. *)
Theorem test_new_predictions_period_rejected `{Builtins}
    (bus destination day period : string) (stop_seq : pyval) (n : Z)
    (w : App.world) :
  bus ∈ App.valid_buses ->
  destination ∈ App.valid_destinations ->
  day ∈ App.valid_days ->
  Py.int stop_seq = Ok n ->
  App.predict
    (TestNewPredictions.data (PStr bus) (PStr destination) (PStr day)
       (PStr period) stop_seq) w
  = (Ok (App.error_response Request.hour_message 400), w).
Proof.
  intros Hbus Hdest Hday Hcoerce.
  set (d := TestNewPredictions.data (PStr bus) (PStr destination) (PStr day)
              (PStr period) stop_seq).
  destruct (test_new_predictions_data_lookup (PStr bus) (PStr destination)
              (PStr day) (PStr period) stop_seq) as (Lb & Ld & Lk & Lt & Ls).
  fold d in Lb, Ld, Lk, Lt, Ls.
  assert (Hb : Request.bus_ok d = true).
  { unfold Request.bus_ok, Request.str_field_in. rewrite Lb.
    by apply bool_decide_eq_true_2. }
  assert (Hd : Request.destination_ok d = true).
  { unfold Request.destination_ok, Request.str_field_in. rewrite Ld.
    by apply bool_decide_eq_true_2. }
  assert (Hk : Request.day_ok d = true).
  { unfold Request.day_ok. rewrite Lk. by apply bool_decide_eq_true_2. }
  assert (Ht : Request.hour_ok d = false).
  { unfold Request.hour_ok. by rewrite Lt. }
  assert (Hc : Py.int (default (PInt 1) (d !! "stop_sequence")) = Ok n).
  { by rewrite Ls. }
  assert (Hbad : Request.bus_ok d && Request.destination_ok d && Request.day_ok d
                 && Request.hour_ok d && Request.stop_ok n = false).
  { by rewrite Hb, Hd, Hk, Ht. }
  destruct (predict_rejects d w n Hc Hbad) as (msg & Hp & Hmsg).
  rewrite Hp.
  destruct Hmsg as [[E _] | [(_ & E & _) | [(_ & _ & E & _)
                   | [(_ & _ & _ & _ & ->) | (_ & _ & _ & E & _)]]]];
    congruence.
Qed.

Lemma test_new_predictions_period_rejected_witness :
  Forall (fun d =>
            App.predict (H := Interp.builtins) d
              (Examples.fresh Examples.artifacts_mild)
            = (Ok (App.error_response Request.hour_message 400),
               Examples.fresh Examples.artifacts_mild))
         TestNewPredictions.cases.
Proof.
  unfold TestNewPredictions.cases.
  repeat (constructor;
          [eapply (test_new_predictions_period_rejected (H := Interp.builtins));
           [apply (bool_decide_unpack _); vm_compute; exact I ..
           | reflexivity] |]).
  constructor.
Defined.

(** X10.  test_api.py posts dictionaries with the keys [distance],
    [traffic_level] and [weather].  Whatever their values, [predict] answers
    400 with the bus text, listing BUS001 to BUS008, and calls no artifact. *)
Theorem test_api_requests_rejected `{Builtins}
    (distance traffic_level weather : pyval) (w : App.world) :
  App.predict (TestApi.data distance traffic_level weather) w
  = (Ok (App.error_response Request.bus_message 400), w)
  /\ Forall (fun d => App.predict d w
                      = (Ok (App.error_response Request.bus_message 400), w))
            TestApi.cases.
Proof.
  assert (Hall : forall a b c,
             App.predict (TestApi.data a b c) w
             = (Ok (App.error_response Request.bus_message 400), w)).
  { intros a b c.
    assert (Hc : Py.int (default (PInt 1) (TestApi.data a b c !! "stop_sequence"))
                 = Ok 1%Z) by reflexivity.
    assert (Hb : Request.bus_ok (TestApi.data a b c) = false) by reflexivity.
    assert (Hbad : Request.bus_ok (TestApi.data a b c)
                   && Request.destination_ok (TestApi.data a b c)
                   && Request.day_ok (TestApi.data a b c)
                   && Request.hour_ok (TestApi.data a b c)
                   && Request.stop_ok 1 = false) by (by rewrite Hb).
    destruct (predict_rejects _ w 1 Hc Hbad) as (msg & Hp & Hmsg).
    rewrite Hp.
    destruct Hmsg as [[_ ->] | [(E & _) | [(E & _) | [(E & _) | (E & _)]]]];
      congruence. }
  split; [apply Hall |]. unfold TestApi.cases.
  repeat (constructor; [apply Hall |]). constructor.
Qed.

(* ===================================================================== *)
(** ** Further properties of the generator *)
(* ===================================================================== *)

Section GeneratorRows.
Context {G : Type} `{RandomState G}.
Import TrainModel.

Lemma rand_repeat_Forall {A} (P : A -> Prop) (n : nat) (c : Rand G A) (g : G) :
  (forall g', P (fst (c g'))) -> Forall P (fst (rand_repeat n c g)).
Proof.
  intros Hc. revert g. induction n as [| n IH]; intros g; [constructor |].
  cbn [rand_repeat]. unfold rand_bind, rand_ret.
  pose proof (Hc g) as Hx. destruct (c g) as [x g1]. specialize (IH g1).
  destruct (rand_repeat n c g1) as [xs g2]. cbn in *. by constructor.
Qed.

Lemma randint_Forall (low high : Z) (n : nat) (g : G) :
  randint_in_range G -> (low < high)%Z ->
  Forall (fun i => (low <= i < high)%Z) (fst (NpRandom.randint low high n g)).
Proof.
  intros Hrange Hlt. unfold NpRandom.randint.
  apply rand_repeat_Forall. intros g'. by apply Hrange.
Qed.

(** Drawing from a non-empty list yields elements of the list. *)
Lemma choice_Forall (a : list string) (n : nat) (g : G) :
  randint_in_range G -> a <> [] ->
  Forall (fun s => s ∈ a) (fst (NpRandom.choice a n g)).
Proof.
  intros Hrange Hne. unfold NpRandom.choice, rand_bind, rand_ret.
  assert (Hlen : (0 < Z.of_nat (length a))%Z) by (destruct a; [done | cbn; lia]).
  pose proof (randint_Forall 0 (Z.of_nat (length a)) n g Hrange Hlen) as Hidx.
  destruct (NpRandom.randint 0 (Z.of_nat (length a)) n g) as [idx g1]. cbn in *.
  apply Forall_fmap. eapply Forall_impl; [exact Hidx |].
  intros i [Hi0 Hi1]. cbn.
  destruct (a !! Z.to_nat i) as [s |] eqn:Hs.
  - cbn. eapply list_elem_of_lookup_2. exact Hs.
  - apply lookup_ge_None in Hs. lia.
Qed.

Lemma DataFrame_Forall buses dests days hours stops :
  Forall (fun s => s ∈ BUS_NUMBERS) buses ->
  Forall (fun s => s ∈ DESTINATIONS) dests ->
  Forall (fun s => s ∈ DAYS_OF_WEEK) days ->
  Forall (fun h => (0 <= h < 24)%Z) hours ->
  Forall (fun s => (1 <= s < 8)%Z) stops ->
  Forall row_in_vocabulary (DataFrame buses dests days hours stops).
Proof.
  intros Hb. revert dests days hours stops.
  induction Hb as [| b buses Hb0 Hb IH]; intros dests days hours stops Hd Hk Hh Hs;
    [constructor |].
  destruct Hd as [| d dests Hd0 Hd]; [constructor |].
  destruct Hk as [| k days Hk0 Hk]; [constructor |].
  destruct Hh as [| h hours Hh0 Hh]; [constructor |].
  destruct Hs as [| s stops Hs0 Hs]; [constructor |].
  cbn [DataFrame]. constructor; [| by apply IH].
  unfold row_in_vocabulary. cbn. repeat split; first [assumption | lia].
Qed.

(** The frame the generator builds before it adds the label column. *)
Lemma generate_dataset_rows (n : nat) (g : G) :
  randint_in_range G ->
  exists (df : list row) (ts : list Q),
    Forall row_in_vocabulary df
    /\ fst (generate_dataset n g)
       = zip_with (fun r t => {| features := r;
                                 Arrival_Time_minutes := Np.round t 2 |}) df ts.
Proof.
  intros Hrange.
  unfold generate_dataset, rand_bind at 1 2 3 4 5 6, rand_ret.
  pose proof (choice_Forall BUS_NUMBERS n g Hrange ltac:(discriminate)) as Hb.
  destruct (NpRandom.choice BUS_NUMBERS n g) as [buses g1].
  pose proof (choice_Forall DESTINATIONS n g1 Hrange ltac:(discriminate)) as Hd.
  destruct (NpRandom.choice DESTINATIONS n g1) as [dests g2].
  pose proof (choice_Forall DAYS_OF_WEEK n g2 Hrange ltac:(discriminate)) as Hk.
  destruct (NpRandom.choice DAYS_OF_WEEK n g2) as [days g3].
  pose proof (randint_Forall 0 24 n g3 Hrange ltac:(lia)) as Hh.
  destruct (NpRandom.randint 0 24 n g3) as [hours g4].
  pose proof (randint_Forall 1 8 n g4 Hrange ltac:(lia)) as Hs.
  destruct (NpRandom.randint 1 8 n g4) as [stops g5].
  cbn [fst] in *.
  destruct (rand_for _ arrival_loop_body g5) as [ts g6]. cbn [fst].
  exists (DataFrame buses dests days hours stops), ts.
  split; [by apply DataFrame_Forall | reflexivity].
Qed.

End GeneratorRows.

Lemma Forall_zip_with_features (P : TrainModel.row -> Prop)
    (df : list TrainModel.row) (ts : list Q) :
  Forall P df ->
  Forall (fun r => P (TrainModel.features r))
    (zip_with (fun r t => {| TrainModel.features := r;
                             TrainModel.Arrival_Time_minutes := Np.round t 2 |})
       df ts).
Proof.
  intros Hdf. revert ts. induction Hdf as [| r df Hr Hdf IH]; intros [| t ts];
    cbn [zip_with]; constructor; [exact Hr | apply IH].
Qed.

Lemma lcg_randint_in_range : randint_in_range (H := Lcg.random_state) Z.
Proof.
  intros low high g Hlt. cbn. unfold Lcg.randint. cbn [fst].
  pose proof (Z.mod_pos_bound (Lcg.next g / 65536) (high - low) ltac:(lia)).
  lia.
Qed.

Lemma generated_rows_in_vocabulary_aux {G : Type} `{RandomState G} (n : nat) (g : G) :
  randint_in_range G ->
  Forall (fun r => row_in_vocabulary (TrainModel.features r))
    (fst (TrainModel.generate_dataset n g)).
Proof.
  intros Hrange.
  destruct (generate_dataset_rows n g Hrange) as (df & ts & Hdf & ->).
  by apply Forall_zip_with_features.
Qed.

(** X11.  When the random source keeps [randint]'s promise (a draw in
    [low, high)), every record the generator returns has its bus, destination
    and day in the declared lists, its hour in [0, 23] and its stop position in
    [1, 7]: the empty-string fallback of the draw and the table defaults are
    never used. *)
Theorem generated_rows_in_vocabulary {G : Type} `{RandomState G} (n : nat) (g : G) :
  randint_in_range G ->
  Forall (fun r => row_in_vocabulary (TrainModel.features r))
    (fst (TrainModel.generate_dataset n g)).
Proof. apply generated_rows_in_vocabulary_aux. Qed.

Lemma generated_rows_in_vocabulary_witness :
  Forall (fun r => row_in_vocabulary (TrainModel.features r))
    (fst (TrainModel.generate_dataset (H := Lcg.random_state) 4 42%Z)).
Proof.
  exact (generated_rows_in_vocabulary (H := Lcg.random_state) 4 42%Z
           lcg_randint_in_range).
Defined.

(** A row of the vocabulary, sent as a request, passes the five checks. *)
Lemma request_of_row_checks (r : TrainModel.row) :
  row_in_vocabulary r ->
  Request.bus_ok (request_of_row r) && Request.destination_ok (request_of_row r)
  && Request.day_ok (request_of_row r) && Request.hour_ok (request_of_row r)
  && Request.stop_ok (TrainModel.Stop_Sequence r) = true.
Proof.
  intros (Hb & Hd & Hk & Hh & Hs). unfold request_of_row.
  destruct (test_new_predictions_data_lookup
              (PStr (TrainModel.Bus_Number r)) (PStr (TrainModel.Destination r))
              (PStr (TrainModel.Day_Of_Week r)) (PInt (TrainModel.Time_Period r))
              (PInt (TrainModel.Stop_Sequence r))) as (Lb & Ld & Lk & Lt & Ls).
  cbv zeta in Lb, Ld, Lk, Lt, Ls.
  unfold Request.bus_ok, Request.destination_ok, Request.day_ok, Request.hour_ok,
    Request.stop_ok, Request.str_field_in.
  rewrite Lb, Ld, Lk, Lt.
  rewrite !bool_decide_eq_true_2 by assumption.
  cbn [andb]. rewrite !andb_true_iff, !Z.leb_le. lia.
Qed.

(** X12.  Generator and endpoint agree on the vocabulary: with a random source
    that keeps [randint]'s promise, every generated record, sent to [predict]
    under the field names it reads, passes the five checks; it is never
    answered 400 (only 200, or 500 when an artifact raises). *)
Theorem generated_rows_pass_validation {G : Type} `{RandomState G} `{Builtins}
    (n : nat) (g : G) (w : App.world) :
  randint_in_range G ->
  Forall (fun r =>
            exists body st w',
              App.predict (request_of_row (TrainModel.features r)) w
              = (Ok (body, st), w')
              /\ (st = 200 \/ st = 500)%Z)
    (fst (TrainModel.generate_dataset n g)).
Proof.
  intros Hrange.
  eapply Forall_impl; [exact (generated_rows_in_vocabulary_aux n g Hrange) |].
  intros r Hr. cbn beta in *.
  apply predict_passed_status with (stop := TrainModel.Stop_Sequence (TrainModel.features r)).
  - reflexivity.
  - by apply request_of_row_checks.
Qed.

Lemma generated_rows_pass_validation_witness :
  Forall (fun r =>
            exists body st w',
              App.predict (H := Interp.builtins)
                (request_of_row (TrainModel.features r))
                (Examples.fresh Examples.artifacts_mild)
              = (Ok (body, st), w')
              /\ (st = 200 \/ st = 500)%Z)
    (fst (TrainModel.generate_dataset (H := Lcg.random_state) 4 42%Z)).
Proof.
  exact (generated_rows_pass_validation (H := Lcg.random_state)
           (H0 := Interp.builtins) 4 42%Z
           (Examples.fresh Examples.artifacts_mild) lcg_randint_in_range).
Defined.

Section LabelFacts.
Import TrainModel.

Lemma base_time_range (destination : string) :
  destination ∈ DESTINATIONS -> 2 <= base_time destination <= 12.
Proof.
  unfold DESTINATIONS. intros Hin.
  repeat (apply elem_of_cons in Hin as [-> | Hin]; [split; vm_compute; discriminate |]).
  by apply elem_of_nil in Hin.
Qed.

Lemma bus_delay_range (bus : string) :
  bus ∈ BUS_NUMBERS -> 0 <= bus_delay bus <= 1.2.
Proof.
  unfold BUS_NUMBERS. intros Hin.
  repeat (apply elem_of_cons in Hin as [-> | Hin]; [split; vm_compute; discriminate |]).
  by apply elem_of_nil in Hin.
Qed.

Lemma time_delay_range (hour : Z) : 0.5 <= time_delay hour <= 2.
Proof.
  unfold time_delay.
  destruct ((6 <=? hour)%Z && (hour <? 12)%Z); [split; discriminate |].
  destruct ((12 <=? hour)%Z && (hour <? 18)%Z); [split; discriminate |].
  destruct ((18 <=? hour)%Z && (hour <? 21)%Z); split; discriminate.
Qed.

Lemma day_factor_range (day : string) : 0.5 <= day_factor day <= 1.
Proof. unfold day_factor. case_bool_decide; split; discriminate. Qed.

Lemma stop_delay_range (stop : Z) :
  (1 <= stop <= 7)%Z -> 0.5 <= stop_delay stop <= 3.5.
Proof.
  intros [H1 H7]. unfold stop_delay.
  rewrite Zle_Qle in H1, H7. change (inject_Z 1) with 1 in H1.
  change (inject_Z 7) with 7 in H7. lra.
Qed.

End LabelFacts.

(** X13.  For a row of the vocabulary the five additive terms sum to a value
    of [3.5, 19.7], strictly inside the clipping interval: the clip acts only
    when the noise pushes the total out, and for a noise of [-2.5, 0.3] the
    label is the plain total rounded to 2 decimals. *)
Theorem total_inside_clip (r : TrainModel.row) (noise : Q) :
  row_in_vocabulary r ->
  -2.5 <= noise <= 0.3 ->
  3.5 <= TrainModel.total_arrival_time r 0 <= 19.7
  /\ Np.clip (TrainModel.total_arrival_time r noise) 1 20
     == TrainModel.total_arrival_time r noise.
Proof.
  intros (Hb & Hd & Hk & Hh & Hs) Hnoise.
  pose proof (base_time_range _ Hd). pose proof (bus_delay_range _ Hb).
  pose proof (time_delay_range (TrainModel.Time_Period r)).
  pose proof (day_factor_range (TrainModel.Day_Of_Week r)).
  pose proof (stop_delay_range _ Hs).
  unfold TrainModel.total_arrival_time. split; [lra |].
  unfold Np.clip. rewrite Q.max_l by lra. apply Q.min_l. lra.
Qed.

Lemma total_inside_clip_witness :
  3.5 <= TrainModel.total_arrival_time
           {| TrainModel.Bus_Number := "BUS003"; TrainModel.Destination := "Nagercoil";
              TrainModel.Day_Of_Week := "Monday"; TrainModel.Time_Period := 14;
              TrainModel.Stop_Sequence := 1 |} 0 <= 19.7.
Proof.
  refine (proj1 (total_inside_clip _ 0 _ _)).
  - unfold row_in_vocabulary. cbn.
    repeat split; first [lia | apply (bool_decide_unpack _); vm_compute; exact I].
  - split; discriminate.
Defined.

Section RoundingFacts.

(** The nearest integer is at most one half away. *)
Lemma rint_error (x : Q) :
  -(1 # 2) <= inject_Z (Np.rint x) - x <= 1 # 2.
Proof.
  pose proof (Qfloor_le x) as Hlo. pose proof (Qlt_floor x) as Hhi.
  rewrite inject_Z_plus in Hhi. change (inject_Z 1) with 1 in Hhi.
  unfold Np.rint.
  destruct (Qcompare (x - inject_Z (Qfloor x)) (1 # 2)) eqn:Hc.
  - apply Qeq_alt in Hc.
    destruct (Z.even (Qfloor x)).
    + lra.
    + rewrite inject_Z_plus. change (inject_Z 1) with 1. lra.
  - apply Qlt_alt in Hc. lra.
  - apply Qgt_alt in Hc. rewrite inject_Z_plus. change (inject_Z 1) with 1. lra.
Qed.

(** The nearest integer grows with its argument. *)
Lemma rint_monotone (x y : Q) : x <= y -> (Np.rint x <= Np.rint y)%Z.
Proof.
  intros Hxy.
  pose proof (Qfloor_resp_le x y Hxy) as Hf.
  assert (Hx : (Np.rint x <= Qfloor x + 1)%Z).
  { unfold Np.rint. destruct (Qcompare _ _); [destruct (Z.even _) | |]; lia. }
  assert (Hy : (Qfloor y <= Np.rint y)%Z).
  { unfold Np.rint. destruct (Qcompare _ _); [destruct (Z.even _) | |]; lia. }
  destruct (Z.eq_dec (Qfloor x) (Qfloor y)) as [Heq | Hne]; [| lia].
  unfold Np.rint. rewrite <- Heq.
  destruct (Qcompare (x - inject_Z (Qfloor x)) (1 # 2)) eqn:Hcx;
    destruct (Qcompare (y - inject_Z (Qfloor x)) (1 # 2)) eqn:Hcy;
    try (destruct (Z.even (Qfloor x)); lia); try lia; exfalso.
  - apply Qeq_alt in Hcx. apply Qlt_alt in Hcy. lra.
  - apply Qgt_alt in Hcx. apply Qeq_alt in Hcy. lra.
  - apply Qgt_alt in Hcx. apply Qlt_alt in Hcy. lra.
Qed.

Lemma round_monotone (x y : Q) (d : nat) : x <= y -> Np.round x d <= Np.round y d.
Proof.
  intros Hxy. pose proof (pow10_pos d) as Hp. unfold Np.round.
  apply Qmult_le_compat_r; [| apply Qlt_le_weak, Qinv_lt_0_compat, Hp].
  rewrite <- Zle_Qle. apply rint_monotone.
  apply Qmult_le_compat_r; [exact Hxy | by apply Qlt_le_weak].
Qed.

Lemma clip_monotone (x y lo hi : Q) : x <= y -> Np.clip x lo hi <= Np.clip y lo hi.
Proof.
  intros Hxy. unfold Np.clip.
  apply Q.min_le_compat_r. apply Q.max_le_compat_r. exact Hxy.
Qed.

End RoundingFacts.


(** X15.  Later stops never arrive earlier: two rows that differ only in the
    stop position, with noises in the same order, get labels in that order. *)
Theorem label_monotone_in_stop (r1 r2 : TrainModel.row) (noise1 noise2 : Q) :
  TrainModel.Bus_Number r1 = TrainModel.Bus_Number r2 ->
  TrainModel.Destination r1 = TrainModel.Destination r2 ->
  TrainModel.Day_Of_Week r1 = TrainModel.Day_Of_Week r2 ->
  TrainModel.Time_Period r1 = TrainModel.Time_Period r2 ->
  (TrainModel.Stop_Sequence r1 <= TrainModel.Stop_Sequence r2)%Z ->
  noise1 <= noise2 ->
  TrainModel.arrival_time r1 noise1 <= TrainModel.arrival_time r2 noise2.
Proof.
  intros Hb Hd Hk Hh Hs Hn. unfold TrainModel.arrival_time.
  apply round_monotone, clip_monotone.
  unfold TrainModel.total_arrival_time, TrainModel.stop_delay.
  rewrite Hb, Hd, Hk, Hh. rewrite Zle_Qle in Hs. lra.
Qed.

Lemma label_monotone_in_stop_witness :
  TrainModel.arrival_time
    {| TrainModel.Bus_Number := "BUS001"; TrainModel.Destination := "Nagercoil";
       TrainModel.Day_Of_Week := "Monday"; TrainModel.Time_Period := 14;
       TrainModel.Stop_Sequence := 3 |} 0
  <= TrainModel.arrival_time
       {| TrainModel.Bus_Number := "BUS001"; TrainModel.Destination := "Nagercoil";
          TrainModel.Day_Of_Week := "Monday"; TrainModel.Time_Period := 14;
          TrainModel.Stop_Sequence := 5 |} 0.1.
Proof.
  apply label_monotone_in_stop; cbn; first [reflexivity | lia | discriminate].
Defined.

(* ===================================================================== *)
(** ** Preprocessing and the encoders it fits *)
(* ===================================================================== *)

Section EncoderOrder.
Import Sklearn.

Lemma StronglySorted_lookup_le {A} (R : relation A) `{!Reflexive R}
    (l : list A) (i j : nat) (x y : A) :
  StronglySorted R l -> (i <= j)%nat -> l !! i = Some x -> l !! j = Some y -> R x y.
Proof.
  intros Hs. revert i j. induction Hs as [| a l Hs IH Ha]; intros i j Hij Hi Hj.
  - by rewrite lookup_nil in Hi.
  - destruct i as [| i]; destruct j as [| j]; cbn in *; try lia.
    + by simplify_eq.
    + simplify_eq. eapply Forall_lookup_1; eauto.
    + apply (IH i j); [lia | done | done].
Qed.

Lemma LabelEncoder_transform_Ok (le : LabelEncoder) (s : string) (c : Z) :
  LabelEncoder_transform le (PStr s) = Ok c ->
  (0 <= c)%Z /\ classes_ le !! Z.to_nat c = Some s.
Proof.
  unfold LabelEncoder_transform.
  destruct (list_find (eq s) (classes_ le)) as [[i x] |] eqn:Hfind; [| discriminate].
  intros [= <-]. apply list_find_Some in Hfind as (Hlook & <- & _).
  split; [lia |]. by rewrite Nat2Z.id.
Qed.

(** The code of every value of a column, as [fit_transform] returns it, is the
    code [transform] gives with the fitted encoder. *)
Lemma LabelEncoder_fit_transform_spec (y : list string) (i : nat) (s : string) :
  y !! i = Some s ->
  exists c, snd (LabelEncoder_fit_transform y) !! i = Some c
            /\ LabelEncoder_transform (fst (LabelEncoder_fit_transform y)) (PStr s)
               = Ok c.
Proof.
  intros Hi. unfold LabelEncoder_fit_transform. cbn [fst snd].
  rewrite list_lookup_fmap, Hi. cbn [fmap option_fmap option_map].
  assert (Hin : s ∈ classes_ (LabelEncoder_fit y)).
  { apply LabelEncoder_fit_classes. eapply list_elem_of_lookup_2. exact Hi. }
  destruct (list_find_elem_of (eq s) (classes_ (LabelEncoder_fit y)) s Hin eq_refl)
    as [[j x] Hfind].
  exists (Z.of_nat j). unfold LabelEncoder_transform. by rewrite Hfind.
Qed.

Lemma LabelEncoder_fit_transform_length (y : list string) :
  length (snd (LabelEncoder_fit_transform y)) = length y.
Proof. unfold LabelEncoder_fit_transform. cbn [snd]. apply length_fmap. Qed.

End EncoderOrder.

Lemma LabelEncoder_fit_ext (values1 values2 : list string) :
  (forall s, s ∈ values1 <-> s ∈ values2) ->
  Sklearn.LabelEncoder_fit values1 = Sklearn.LabelEncoder_fit values2.
Proof.
  intros Hsame. unfold Sklearn.LabelEncoder_fit. f_equal.
  apply (StronglySorted_unique String.le).
  - apply StronglySorted_merge_sort; apply _.
  - apply StronglySorted_merge_sort; apply _.
  - rewrite !merge_sort_Permutation.
    apply NoDup_Permutation; [apply NoDup_remove_dups .. |].
    intros s. rewrite !elem_of_remove_dups. apply Hsame.
Qed.

(** X16.  The fitted table depends only on which values occur in the column,
    not on their order or how often they occur: two columns with the same
    values give the same encoder, hence the same codes. *)
Theorem encoder_fit_depends_on_values (values1 values2 : list string) :
  (forall s, s ∈ values1 <-> s ∈ values2) ->
  Sklearn.LabelEncoder_fit values1 = Sklearn.LabelEncoder_fit values2.
Proof. apply LabelEncoder_fit_ext. Qed.

Lemma encoder_fit_depends_on_values_witness :
  Sklearn.LabelEncoder_fit ["BUS002"; "BUS003"; "BUS002"]
  = Sklearn.LabelEncoder_fit ["BUS003"; "BUS002"].
Proof.
  apply encoder_fit_depends_on_values. intros s.
  rewrite !elem_of_cons, !elem_of_nil. tauto.
Defined.

(** X17.  Codes follow the lexicographic order of the values and distinct
    values get distinct codes: for two values of the fitted column, the one
    with the smaller code is lexicographically smaller or equal, and equal
    codes mean equal values; every code is below the number of classes. *)
Theorem encoder_codes_ordered (values : list string) (v1 v2 : string) (c1 c2 : Z) :
  Sklearn.LabelEncoder_transform (Sklearn.LabelEncoder_fit values) (PStr v1) = Ok c1 ->
  Sklearn.LabelEncoder_transform (Sklearn.LabelEncoder_fit values) (PStr v2) = Ok c2 ->
  ((c1 <= c2)%Z -> String.le v1 v2)
  /\ (c1 = c2 -> v1 = v2)
  /\ (0 <= c1 < Z.of_nat (length (Sklearn.classes_ (Sklearn.LabelEncoder_fit values))))%Z.
Proof.
  intros H1 H2.
  apply LabelEncoder_transform_Ok in H1 as [Hp1 Hl1].
  apply LabelEncoder_transform_Ok in H2 as [Hp2 Hl2].
  split; [| split].
  - intros Hle.
    apply (StronglySorted_lookup_le String.le
             (Sklearn.classes_ (Sklearn.LabelEncoder_fit values))
             (Z.to_nat c1) (Z.to_nat c2)); [| lia | done | done].
    unfold Sklearn.LabelEncoder_fit. cbn [Sklearn.classes_].
    apply StronglySorted_merge_sort; apply _.
  - intros ->. congruence.
  - apply lookup_lt_Some in Hl1. lia.
Qed.

Lemma encoder_codes_ordered_witness : String.le "Colachel" "Kulasekaram".
Proof.
  refine (proj1 (encoder_codes_ordered TrainModel.DESTINATIONS
                   "Colachel" "Kulasekaram" 0 2 _ _) _);
    [vm_compute; reflexivity | vm_compute; reflexivity | lia].
Defined.

Section PreprocessFacts.
Import TrainModel.

(** Row [i] of the encoded matrix, its label and the three encoders. *)
Lemma preprocess_data_row (df : list record) (i : nat) (rec : record) :
  df !! i = Some rec ->
  exists b d k : Z,
    fst (fst (preprocess_data df)) !! i
    = Some [b; d; k; Time_Period (features rec); Stop_Sequence (features rec)]
    /\ snd (fst (preprocess_data df)) !! i = Some (Arrival_Time_minutes rec)
    /\ (exists le, snd (preprocess_data df) !! "bus_encoder" = Some le
          /\ Sklearn.LabelEncoder_transform le (PStr (Bus_Number (features rec)))
             = Ok b)
    /\ (exists le, snd (preprocess_data df) !! "destination_encoder" = Some le
          /\ Sklearn.LabelEncoder_transform le (PStr (Destination (features rec)))
             = Ok d)
    /\ (exists le, snd (preprocess_data df) !! "day_encoder" = Some le
          /\ Sklearn.LabelEncoder_transform le (PStr (Day_Of_Week (features rec)))
             = Ok k).
Proof.
  intros Hi.
  assert (HX : (features <$> df) !! i = Some (features rec))
    by (by rewrite list_lookup_fmap, Hi).
  assert (Hcol : forall f : row -> string,
             (f <$> (features <$> df)) !! i = Some (f (features rec)))
    by (intros f; by rewrite list_lookup_fmap, HX).
  destruct (LabelEncoder_fit_transform_spec _ i _ (Hcol Bus_Number)) as (b & Hb & Tb).
  destruct (LabelEncoder_fit_transform_spec _ i _ (Hcol Destination)) as (d & Hd & Td).
  destruct (LabelEncoder_fit_transform_spec _ i _ (Hcol Day_Of_Week)) as (k & Hk & Tk).
  exists b, d, k. unfold preprocess_data.
  destruct (Sklearn.LabelEncoder_fit_transform (Bus_Number <$> (features <$> df)))
    as [le_bus bus_codes].
  destruct (Sklearn.LabelEncoder_fit_transform (Destination <$> (features <$> df)))
    as [le_destination destination_codes].
  destruct (Sklearn.LabelEncoder_fit_transform (Day_Of_Week <$> (features <$> df)))
    as [le_day day_codes].
  cbn [fst snd] in *. split; [| split; [| split; [| split]]].
  - rewrite list_lookup_fmap.
    assert (Hz : zip (zip (zip (features <$> df) bus_codes) destination_codes)
                   day_codes !! i = Some (features rec, b, d, k)).
    { apply lookup_zip_with_Some. eexists _, _. split; [reflexivity |].
      split; [| exact Hk].
      apply lookup_zip_with_Some. eexists _, _. split; [reflexivity |].
      split; [| exact Hd].
      apply lookup_zip_with_Some. eexists _, _. split; [reflexivity |].
      split; [exact HX | exact Hb]. }
    by rewrite Hz.
  - by rewrite list_lookup_fmap, Hi.
  - exists le_bus. split; [| exact Tb].
    rewrite !lookup_insert_ne by discriminate. apply lookup_insert_eq.
  - exists le_destination. split; [| exact Td].
    rewrite lookup_insert_ne by discriminate. apply lookup_insert_eq.
  - exists le_day. split; [| exact Tk]. apply lookup_insert_eq.
Qed.

End PreprocessFacts.

(** X18.  [preprocess_data] keeps the rows aligned: row [i] of the encoded
    matrix is [bus code, destination code, day code, hour, stop] of record [i]
    with hour and stop unchanged, entry [i] of the target is its label, and
    each code is the one the returned encoder gives for the record's value. *)
Theorem preprocess_data_replay (df : list TrainModel.record) (i : nat)
    (rec : TrainModel.record) :
  df !! i = Some rec ->
  exists b d k : Z,
    fst (fst (TrainModel.preprocess_data df)) !! i
    = Some [b; d; k; TrainModel.Time_Period (TrainModel.features rec);
            TrainModel.Stop_Sequence (TrainModel.features rec)]
    /\ snd (fst (TrainModel.preprocess_data df)) !! i
       = Some (TrainModel.Arrival_Time_minutes rec)
    /\ (exists le, snd (TrainModel.preprocess_data df) !! "bus_encoder" = Some le
          /\ Sklearn.LabelEncoder_transform le
               (PStr (TrainModel.Bus_Number (TrainModel.features rec))) = Ok b)
    /\ (exists le, snd (TrainModel.preprocess_data df) !! "destination_encoder" = Some le
          /\ Sklearn.LabelEncoder_transform le
               (PStr (TrainModel.Destination (TrainModel.features rec))) = Ok d)
    /\ (exists le, snd (TrainModel.preprocess_data df) !! "day_encoder" = Some le
          /\ Sklearn.LabelEncoder_transform le
               (PStr (TrainModel.Day_Of_Week (TrainModel.features rec))) = Ok k).
Proof. apply preprocess_data_row. Qed.

Lemma dataset_small_head :
  Examples2.dataset_small !! 0%nat
  = Some {| TrainModel.features :=
              {| TrainModel.Bus_Number := "BUS002";
                 TrainModel.Destination := "Nagercoil";
                 TrainModel.Day_Of_Week := "Thursday";
                 TrainModel.Time_Period := 6;
                 TrainModel.Stop_Sequence := 7 |};
            TrainModel.Arrival_Time_minutes := 8.78 |}.
Proof. vm_compute. reflexivity. Qed.

Lemma preprocess_data_replay_witness :
  exists b d k : Z,
    fst (fst (TrainModel.preprocess_data Examples2.dataset_small)) !! 0%nat
    = Some [b; d; k; 6%Z; 7%Z].
Proof.
  destruct (preprocess_data_replay Examples2.dataset_small 0 _ dataset_small_head)
    as (b & d & k & HX & _).
  by exists b, d, k.
Defined.

(** X19.  Serving replays training: for a record of the training frame (with
    its fields in the vocabulary), served by artifacts whose encoders are the
    ones [preprocess_data] returned for that frame, the three encoder calls
    succeed and the row handed to the scaler is exactly the record's row of
    the encoded training matrix. *)
Theorem serving_replays_training_row `{Builtins}
    (df : list TrainModel.record) (i : nat) (rec : TrainModel.record)
    (w : App.world) :
  df !! i = Some rec ->
  row_in_vocabulary (TrainModel.features rec) ->
  App.encoders (App.w_globals w) = snd (TrainModel.preprocess_data df) ->
  exists (Xrow : list Z) (rest : list App.call),
    fst (fst (TrainModel.preprocess_data df)) !! i = Some Xrow
    /\ App.w_calls (snd (App.predict (request_of_row (TrainModel.features rec)) w))
       = App.w_calls w
         ++ [App.EncoderTransform "bus_encoder"
               (PStr (TrainModel.Bus_Number (TrainModel.features rec)));
             App.EncoderTransform "destination_encoder"
               (PStr (TrainModel.Destination (TrainModel.features rec)));
             App.EncoderTransform "day_encoder"
               (PStr (TrainModel.Day_Of_Week (TrainModel.features rec)));
             App.ScalerTransform (inject_Z <$> Xrow)]
         ++ rest.
Proof.
  intros Hi Hvoc Henc.
  destruct (preprocess_data_row df i rec Hi)
    as (b & d & k & HX & _ & (leb & Hkb & Hb) & (led & Hkd & Hd) & (lek & Hkk & Hk)).
  rewrite <- Henc in Hkb, Hkd, Hkk.
  pose proof (request_of_row_checks _ Hvoc) as Hok.
  repeat (apply andb_prop in Hok as [Hok ?]).
  set (r := TrainModel.features rec) in *.
  destruct (test_new_predictions_data_lookup
              (PStr (TrainModel.Bus_Number r)) (PStr (TrainModel.Destination r))
              (PStr (TrainModel.Day_Of_Week r)) (PInt (TrainModel.Time_Period r))
              (PInt (TrainModel.Stop_Sequence r))) as (Lb & Ld & Lk & Lt & Ls).
  cbv zeta in Lb, Ld, Lk, Lt, Ls. fold (request_of_row r) in Lb, Ld, Lk, Lt, Ls.
  exists [b; d; k; TrainModel.Time_Period r; TrainModel.Stop_Sequence r].
  remember (App.predict (request_of_row r) w) as p eqn:Hp.
  unfold App.predict, App.try_except, App.predict_body in Hp.
  rewrite Ls in Hp. cbn [from_option id Py.int] in Hp.
  unfold App.bind at 1 in Hp. unfold App.lift at 1 in Hp. cbv beta iota in Hp.
  rewrite bus_check, destination_check, day_check, hour_check, stop_check in Hp.
  repeat match goal with Hc : _ = true |- _ => rewrite Hc in Hp; clear Hc end.
  cbv beta iota delta [negb] in Hp.
  rewrite Lb, Ld, Lk, Lt in Hp. cbn [from_option id Py.int_value] in Hp.
  unfold App.bind at 1 in Hp.
  erewrite encoder_transform_ok in Hp; [| exact Hkb | exact Hb]. cbv beta iota in Hp.
  unfold App.bind at 1 in Hp.
  erewrite encoder_transform_ok in Hp; [| exact Hkd | exact Hd]. cbv beta iota in Hp.
  unfold App.bind at 1 in Hp.
  erewrite encoder_transform_ok in Hp; [| exact Hkk | exact Hk]. cbv beta iota in Hp.
  unfold App.bind at 1 in Hp. rewrite scaler_transform_eq in Hp.
  cbn [App.w_globals App.w_calls] in Hp.
  destruct (Sklearn.StandardScaler_transform _ _) as [Xs | e].
  - cbv beta iota in Hp. unfold App.bind at 1 in Hp.
    rewrite model_predict_eq in Hp. cbn [App.w_globals App.w_calls] in Hp.
    exists [App.ModelPredict Xs]. split; [exact HX |].
    destruct (Sklearn.Ridge_predict _ Xs) as [y | e]; subst p; cbn;
      rewrite <- !app_assoc; reflexivity.
  - exists []. split; [exact HX |]. subst p. cbn.
    rewrite <- !app_assoc. reflexivity.
Qed.

Lemma serving_replays_training_row_witness :
  exists (Xrow : list Z) (rest : list App.call),
    fst (fst (TrainModel.preprocess_data Examples2.dataset_small)) !! 0%nat
    = Some Xrow
    /\ App.w_calls
         (snd (App.predict (H := Interp.builtins)
                 (request_of_row
                    {| TrainModel.Bus_Number := "BUS002";
                       TrainModel.Destination := "Nagercoil";
                       TrainModel.Day_Of_Week := "Thursday";
                       TrainModel.Time_Period := 6;
                       TrainModel.Stop_Sequence := 7 |})
                 (Examples.fresh Examples2.artifacts_small)))
       = [App.EncoderTransform "bus_encoder" (PStr "BUS002");
          App.EncoderTransform "destination_encoder" (PStr "Nagercoil");
          App.EncoderTransform "day_encoder" (PStr "Thursday");
          App.ScalerTransform (inject_Z <$> Xrow)] ++ rest.
Proof.
  refine (serving_replays_training_row (H := Interp.builtins)
            Examples2.dataset_small 0 _ (Examples.fresh Examples2.artifacts_small)
            dataset_small_head _ eq_refl).
  unfold row_in_vocabulary. cbn.
  repeat split; first [lia | apply (bool_decide_unpack _); vm_compute; exact I].
Defined.

(** X20.  Every destination is either one of the eight declared ones, mapped
    to a base time of [2, 12] minutes, or unmapped and given the default 6. *)
Theorem destination_base_time_table (destination : string) :
  (destination ∈ TrainModel.DESTINATIONS
   /\ (exists v, TrainModel.destination_base_time !! destination = Some v
         /\ TrainModel.base_time destination = v)
   /\ 2 <= TrainModel.base_time destination <= 12)
  \/ ((destination ∉ TrainModel.DESTINATIONS)
      /\ TrainModel.destination_base_time !! destination = None
      /\ TrainModel.base_time destination = 6).
Proof.
  destruct (decide (destination ∈ TrainModel.DESTINATIONS)) as [Hin | Hout].
  - left. split; [exact Hin |]. split; [| by apply base_time_range].
    unfold TrainModel.DESTINATIONS in Hin.
    repeat (apply elem_of_cons in Hin as [-> | Hin];
            [eexists; split; vm_compute; reflexivity |]).
    by apply elem_of_nil in Hin.
  - right. split; [exact Hout |].
    assert (Hnone : TrainModel.destination_base_time !! destination = None).
    { apply not_elem_of_list_to_map_1. exact Hout. }
    split; [exact Hnone |]. unfold TrainModel.base_time. by rewrite Hnone.
Qed.

(** X21.  [preprocess_data] returns one encoded row of exactly five numbers
    and one label per record, and an encoder dictionary with exactly the three
    keys [predict] looks up. *)
Theorem preprocess_data_shape (df : list TrainModel.record) :
  length (fst (fst (TrainModel.preprocess_data df))) = length df
  /\ length (snd (fst (TrainModel.preprocess_data df))) = length df
  /\ Forall (fun x => length x = 5%nat) (fst (fst (TrainModel.preprocess_data df)))
  /\ dom (snd (TrainModel.preprocess_data df))
     = ({[ "bus_encoder"; "destination_encoder"; "day_encoder" ]} : gset string).
Proof.
  unfold TrainModel.preprocess_data.
  pose proof (LabelEncoder_fit_transform_length
                (TrainModel.Bus_Number <$> (TrainModel.features <$> df))) as Lb.
  pose proof (LabelEncoder_fit_transform_length
                (TrainModel.Destination <$> (TrainModel.features <$> df))) as Ld.
  pose proof (LabelEncoder_fit_transform_length
                (TrainModel.Day_Of_Week <$> (TrainModel.features <$> df))) as Lk.
  destruct (Sklearn.LabelEncoder_fit_transform
              (TrainModel.Bus_Number <$> (TrainModel.features <$> df)))
    as [le_bus bus_codes].
  destruct (Sklearn.LabelEncoder_fit_transform
              (TrainModel.Destination <$> (TrainModel.features <$> df)))
    as [le_destination destination_codes].
  destruct (Sklearn.LabelEncoder_fit_transform
              (TrainModel.Day_Of_Week <$> (TrainModel.features <$> df)))
    as [le_day day_codes].
  cbn [fst snd] in *. rewrite !length_fmap in Lb, Ld, Lk.
  split; [| split; [| split]].
  - rewrite length_fmap, !length_zip_with, length_fmap. lia.
  - apply length_fmap.
  - apply Forall_fmap. apply Forall_forall. by intros [[[r b] d] k] _.
  - rewrite !dom_insert_L, dom_empty_L. set_solver.
Qed.

(** X22.  When every declared bus, destination and day occurs in the
    generated frame (and the random source keeps [randint]'s promise), the
    encoders [preprocess_data] fits are exactly the ones fitted on the three
    declared lists: every value that passes validation has a code. *)
Theorem full_coverage_encoders {G : Type} `{RandomState G} (n : nat) (g : G) :
  randint_in_range G ->
  column_covers TrainModel.Bus_Number TrainModel.BUS_NUMBERS
    (fst (TrainModel.generate_dataset n g)) ->
  column_covers TrainModel.Destination TrainModel.DESTINATIONS
    (fst (TrainModel.generate_dataset n g)) ->
  column_covers TrainModel.Day_Of_Week TrainModel.DAYS_OF_WEEK
    (fst (TrainModel.generate_dataset n g)) ->
  snd (TrainModel.preprocess_data (fst (TrainModel.generate_dataset n g)))
  = Examples.encoders_full.
Proof.
  intros Hrange Hb Hd Hk.
  pose proof (generated_rows_in_vocabulary_aux n g Hrange) as Hvoc.
  set (df := fst (TrainModel.generate_dataset n g)) in *.
  assert (Hcol : forall (column : TrainModel.row -> string) (vocabulary : list string),
             (forall r, row_in_vocabulary r -> column r ∈ vocabulary) ->
             column_covers column vocabulary df ->
             Sklearn.LabelEncoder_fit (column <$> (TrainModel.features <$> df))
             = Sklearn.LabelEncoder_fit vocabulary).
  { intros column vocabulary Hin Hcov. apply LabelEncoder_fit_ext. intros s. split.
    - intros Hs. apply list_elem_of_fmap in Hs as (r & -> & Hr).
      apply list_elem_of_fmap in Hr as (rec & -> & Hrec).
      apply Hin. eapply Forall_forall in Hvoc; [exact Hvoc | exact Hrec].
    - intros Hs. unfold column_covers in Hcov.
      eapply Forall_forall in Hcov; [exact Hcov | exact Hs]. }
  unfold TrainModel.preprocess_data, Sklearn.LabelEncoder_fit_transform.
  cbn [fst snd].
  rewrite (Hcol TrainModel.Bus_Number TrainModel.BUS_NUMBERS) by (done || by intros r (? & _)).
  rewrite (Hcol TrainModel.Destination TrainModel.DESTINATIONS)
    by (done || by intros r (_ & ? & _)).
  rewrite (Hcol TrainModel.Day_Of_Week TrainModel.DAYS_OF_WEEK)
    by (done || by intros r (_ & _ & ? & _)).
  unfold Examples.encoders_full. apply map_eq. intros key.
  cbn [list_to_map foldr].
  destruct (decide (key = "bus_encoder")) as [-> | Nb]; [reflexivity |].
  destruct (decide (key = "destination_encoder")) as [-> | Nd]; [reflexivity |].
  destruct (decide (key = "day_encoder")) as [-> | Nk]; [reflexivity |].
  by rewrite !lookup_insert_ne by done.
Qed.

Lemma full_coverage_encoders_witness :
  snd (TrainModel.preprocess_data Examples2.dataset_forty) = Examples.encoders_full.
Proof.
  apply (full_coverage_encoders (H := Lcg.random_state) 40 42%Z lcg_randint_in_range);
    apply (bool_decide_unpack _); vm_compute; exact I.
Defined.
